(** * SoberBookings backend: the Notion webhook pipeline

    A shallow embedding of [backend/src/webhooks/notion.py] and of the
    parts of [backend/src/utils/logger.py] it calls, together with the
    Python built-ins the two functions rely on ([hmac], [hashlib.sha256],
    [json.dumps], [str.encode], string formatting).

    Python values are carried as follows.
    - [str]   : the list of its Unicode code points, each an [N].
    - [bytes] : a list of [Byte.byte].
    - a [dict] that is only read with [.get] (headers, [os.environ]) : a
      [gmap]; a [dict] that is serialised (the payload) : an association
      list in insertion order.
    - an exception : the [Raise] constructor of [result].

    Two limits of the interpreter are left out: the bound on the number
    of digits when an [int] is printed, and the recursion depth. *)

From Stdlib Require Import NArith ZArith List Lia Bool Ascii String.
From Stdlib Require Import Strings.Byte.
From Stdlib Require Import DecimalString.
From stdpp Require Import gmap list.
Import ListNotations.

#[local] Set Warnings "-register-all".

(** ** Strings and bytes *)

Abbreviation str := (list N).
Abbreviation bytes := (list byte).

#[global] Instance byte_eq_dec : EqDecision byte.
Proof.
  intros x y. destruct (Byte.eqb x y) eqn:E.
  - left. by apply Byte.byte_dec_bl.
  - right. by apply Byte.eqb_false.
Defined.

(** A Python string literal, written as a Rocq string of ASCII characters. *)
Definition lit (s : string) : str :=
  List.map N_of_ascii (list_ascii_of_string s).

Definition byte_of_N (n : N) : byte :=
  match Byte.of_N (n mod 256) with
  | Some b => b
  | None => x00
  end.

(** A bytes literal [b"..."]. *)
Definition blit (s : string) : bytes :=
  List.map byte_of_N (lit s).

(** The exceptions that the modelled code can raise. *)
Inductive exn : Type :=
| TypeError
| UnicodeEncodeError
| AttributeError.

Inductive result (A : Type) : Type :=
| Ok (a : A)
| Raise (e : exn).
Arguments Ok {A} a.
Arguments Raise {A} e.

Definition rbind {A B} (r : result A) (k : A -> result B) : result B :=
  match r with
  | Ok a => k a
  | Raise e => Raise e
  end.

(** *** [str.encode('utf-8')]

    Strict UTF-8: a surrogate code point (U+D800..U+DFFF) cannot be
    encoded and raises [UnicodeEncodeError]. *)
Module Utf8.
Local Open Scope N_scope.

Definition is_surrogate (c : N) : bool :=
  (0xD800 <=? c) && (c <=? 0xDFFF).

Definition cont (c : N) : byte := byte_of_N (N.lor 0x80 (N.land c 0x3F)).

Definition encode_char (c : N) : result bytes :=
  if c <? 0x80 then Ok [byte_of_N c]
  else if c <? 0x800 then
    Ok [byte_of_N (N.lor 0xC0 (N.shiftr c 6)); cont c]
  else if is_surrogate c then Raise UnicodeEncodeError
  else if c <? 0x10000 then
    Ok [byte_of_N (N.lor 0xE0 (N.shiftr c 12)); cont (N.shiftr c 6); cont c]
  else
    Ok [byte_of_N (N.lor 0xF0 (N.shiftr c 18)); cont (N.shiftr c 12);
        cont (N.shiftr c 6); cont c].

Fixpoint encode (s : str) : result bytes :=
  match s with
  | [] => Ok []
  | c :: s' =>
      rbind (encode_char c) (fun bs =>
      rbind (encode s') (fun rest => Ok (bs ++ rest)))
  end.
End Utf8.

(** ** [hashlib.sha256] (FIPS 180-4), on 32-bit words held in [N] *)
Module Sha256.
Local Open Scope N_scope.

Definition wrap32 (x : N) : N := N.land x 0xFFFFFFFF.
Definition add32 (x y : N) : N := wrap32 (x + y).
Definition rotr (n x : N) : N :=
  N.lor (N.shiftr x n) (wrap32 (N.shiftl x (32 - n))).
Definition not32 (x : N) : N := N.lxor x 0xFFFFFFFF.

Definition ch (x y z : N) : N := N.lxor (N.land x y) (N.land (not32 x) z).
Definition maj (x y z : N) : N :=
  N.lxor (N.lxor (N.land x y) (N.land x z)) (N.land y z).
Definition bsig0 (x : N) : N := N.lxor (N.lxor (rotr 2 x) (rotr 13 x)) (rotr 22 x).
Definition bsig1 (x : N) : N := N.lxor (N.lxor (rotr 6 x) (rotr 11 x)) (rotr 25 x).
Definition ssig0 (x : N) : N := N.lxor (N.lxor (rotr 7 x) (rotr 18 x)) (N.shiftr x 3).
Definition ssig1 (x : N) : N := N.lxor (N.lxor (rotr 17 x) (rotr 19 x)) (N.shiftr x 10).

Definition round_constants : list N :=
  [ 0x428A2F98; 0x71374491; 0xB5C0FBCF; 0xE9B5DBA5;
    0x3956C25B; 0x59F111F1; 0x923F82A4; 0xAB1C5ED5;
    0xD807AA98; 0x12835B01; 0x243185BE; 0x550C7DC3;
    0x72BE5D74; 0x80DEB1FE; 0x9BDC06A7; 0xC19BF174;
    0xE49B69C1; 0xEFBE4786; 0x0FC19DC6; 0x240CA1CC;
    0x2DE92C6F; 0x4A7484AA; 0x5CB0A9DC; 0x76F988DA;
    0x983E5152; 0xA831C66D; 0xB00327C8; 0xBF597FC7;
    0xC6E00BF3; 0xD5A79147; 0x06CA6351; 0x14292967;
    0x27B70A85; 0x2E1B2138; 0x4D2C6DFC; 0x53380D13;
    0x650A7354; 0x766A0ABB; 0x81C2C92E; 0x92722C85;
    0xA2BFE8A1; 0xA81A664B; 0xC24B8B70; 0xC76C51A3;
    0xD192E819; 0xD6990624; 0xF40E3585; 0x106AA070;
    0x19A4C116; 0x1E376C08; 0x2748774C; 0x34B0BCB5;
    0x391C0CB3; 0x4ED8AA4A; 0x5B9CCA4F; 0x682E6FF3;
    0x748F82EE; 0x78A5636F; 0x84C87814; 0x8CC70208;
    0x90BEFFFA; 0xA4506CEB; 0xBEF9A3F7; 0xC67178F2 ].

(** The eight working variables, also used for the chaining value. *)
Record regs : Type := Regs {
  ra : N; rb : N; rc : N; rd : N; re : N; rf : N; rg : N; rh : N }.

Definition initial : regs :=
  Regs 0x6A09E667 0xBB67AE85 0x3C6EF372 0xA54FF53A
       0x510E527F 0x9B05688C 0x1F83D9AB 0x5BE0CD19.

(** Padding: a [0x80] byte, zero bytes up to 56 modulo 64, then the bit
    length as a 64-bit big-endian integer. *)
Definition be_bytes (width : nat) (x : N) : list N :=
  List.map (fun i => N.land (N.shiftr x (8 * N.of_nat i)) 0xFF)
           (List.rev (List.seq 0 width)).

Definition pad (msg : list N) : list N :=
  let len := N.of_nat (List.length msg) in
  let zeros := N.to_nat ((64 + 55 - len mod 64) mod 64) in
  msg ++ [0x80] ++ List.repeat 0 zeros ++ be_bytes 8 (8 * len).

Fixpoint words_of (bs : list N) : list N :=
  match bs with
  | b3 :: b2 :: b1 :: b0 :: rest =>
      N.lor (N.shiftl b3 24) (N.lor (N.shiftl b2 16) (N.lor (N.shiftl b1 8) b0))
      :: words_of rest
  | _ => []
  end.

(** The message schedule is built newest word first: with [w] holding
    W(t-1), W(t-2), ... the next word is
    ssig1 W(t-2) + W(t-7) + ssig0 W(t-15) + W(t-16). *)
Fixpoint schedule (n : nat) (w : list N) : list N :=
  match n with
  | O => w
  | S n' =>
      let x := add32 (add32 (ssig1 (List.nth 1 w 0)) (List.nth 6 w 0))
                     (add32 (ssig0 (List.nth 14 w 0)) (List.nth 15 w 0)) in
      schedule n' (x :: w)
  end.

Definition step (s : regs) (kw : N * N) : regs :=
  let t1 := add32 (add32 (add32 (rh s) (bsig1 (re s)))
                         (add32 (ch (re s) (rf s) (rg s)) (fst kw))) (snd kw) in
  let t2 := add32 (bsig0 (ra s)) (maj (ra s) (rb s) (rc s)) in
  Regs (add32 t1 t2) (ra s) (rb s) (rc s) (add32 (rd s) t1) (re s) (rf s) (rg s).

Definition compress (h : regs) (block : list N) : regs :=
  let w := List.rev (schedule 48 (List.rev block)) in
  let s := List.fold_left step (List.combine round_constants w) h in
  Regs (add32 (ra h) (ra s)) (add32 (rb h) (rb s))
       (add32 (rc h) (rc s)) (add32 (rd h) (rd s))
       (add32 (re h) (re s)) (add32 (rf h) (rf s))
       (add32 (rg h) (rg s)) (add32 (rh h) (rh s)).

(** Splits the word stream in blocks of sixteen words. *)
Fixpoint blocks (fuel : nat) (ws : list N) : list (list N) :=
  match fuel, ws with
  | S fuel', _ :: _ => List.firstn 16 ws :: blocks fuel' (List.skipn 16 ws)
  | _, _ => []
  end.

Definition word_bytes (x : N) : bytes := List.map byte_of_N (be_bytes 4 x).

Definition output (h : regs) : bytes :=
  word_bytes (ra h) ++ word_bytes (rb h) ++ word_bytes (rc h) ++
  word_bytes (rd h) ++ word_bytes (re h) ++ word_bytes (rf h) ++
  word_bytes (rg h) ++ word_bytes (rh h).

Definition digest (msg : bytes) : bytes :=
  let ws := words_of (pad (List.map Byte.to_N msg)) in
  output (List.fold_left compress (blocks (List.length ws) ws) initial).
End Sha256.

(** ** [hmac.new(key, msg, hashlib.sha256)] (RFC 2104, block size 64) *)
Module Hmac.
Definition block_size : nat := 64.

Definition xor_byte (c : N) (b : byte) : byte :=
  byte_of_N (N.lxor c (Byte.to_N b)).

(** A key longer than a block is hashed first; the key is then filled
    with zero bytes up to the block size. *)
Definition block_key (key : bytes) : bytes :=
  let k := if Nat.ltb block_size (List.length key) then Sha256.digest key else key in
  k ++ List.repeat x00 (block_size - List.length k).

Definition digest (key msg : bytes) : bytes :=
  let k := block_key key in
  let inner := Sha256.digest (List.map (xor_byte 0x36) k ++ msg) in
  Sha256.digest (List.map (xor_byte 0x5C) k ++ inner).

(** [.hexdigest()]: two lowercase hexadecimal digits per byte. *)
Definition hex_digit (n : N) : N :=
  if (n <? 10)%N then (48 + n)%N else (87 + n)%N.

Definition hex_of_byte (b : byte) : str :=
  [hex_digit (Byte.to_N b / 16); hex_digit (Byte.to_N b mod 16)].

Definition hex (bs : bytes) : str := List.concat (List.map hex_of_byte bs).

Definition hexdigest (key msg : bytes) : str := hex (digest key msg).

(** *** [hmac.compare_digest] on two [str] arguments

    Both strings must be ASCII, otherwise [TypeError] is raised.  The
    comparison itself follows CPython's [_tscmp]: it always walks the
    whole second argument, or-ing the xor of the characters into an
    accumulator that starts at 1 when the lengths differ (the second
    argument is then compared with itself). *)
Definition is_ascii (s : str) : bool := List.forallb (fun c => (c <? 128)%N) s.

Fixpoint tscmp_loop (acc : N) (left right : str) : N :=
  match left, right with
  | l :: left', r :: right' => tscmp_loop (N.lor acc (N.lxor l r)) left' right'
  | _, _ => acc
  end.

Definition tscmp (a b : str) : bool :=
  if Nat.eqb (List.length a) (List.length b)
  then N.eqb (tscmp_loop 0 a b) 0
  else N.eqb (tscmp_loop 1 b b) 0.

Definition compare_digest (a b : str) : result bool :=
  if is_ascii a && is_ascii b then Ok (tscmp a b) else Raise TypeError.
End Hmac.

(** ** [validate_signature] *)

(** Python truthiness of a sequence: [not x] holds for the empty one. *)
Definition py_not {A} (x : list A) : bool :=
  match x with [] => true | _ => false end.

(** [hmac.new(secret.encode('utf-8'), payload, hashlib.sha256).hexdigest()] *)
Definition computed_signature (secret : str) (payload : bytes) : result str :=
  rbind (Utf8.encode secret) (fun key => Ok (Hmac.hexdigest key payload)).

Definition validate_signature (payload : bytes) (signature : str) (secret : str)
  : result bool :=
  if py_not payload || py_not signature || py_not secret then Ok false
  else
    rbind (computed_signature secret payload) (fun computed =>
    Hmac.compare_digest computed signature).

(** ** Python values that a parsed JSON document can hold

    A float is never computed with by this code, only printed: a finite
    one is carried by the text of its [repr] (digits, sign, point and
    exponent), the three special values by a constructor each. *)
Inductive pyfloat : Type :=
| FNan
| FPosInf
| FNegInf
| FFinite (repr : string).

Inductive value : Type :=
| VNone
| VBool (b : bool)
| VInt (z : Z)
| VFloat (f : pyfloat)
| VStr (s : str)
| VList (items : list value)
| VDict (entries : list (str * value)).

Fixpoint join (sep : str) (parts : list str) : str :=
  match parts with
  | [] => []
  | [p] => p
  | p :: rest => p ++ sep ++ join sep rest
  end.

(** [repr] of an [int]: decimal digits with a minus sign when negative. *)
Definition int_repr (z : Z) : str := lit (NilZero.string_of_int (Z.to_int z)).

(** A backslash followed by the characters of [s]. *)
Definition esc (s : string) : str := 92%N :: lit s.

(** [n] as [width] lowercase hexadecimal digits. *)
Definition hex_width (width : nat) (n : N) : str :=
  List.map (fun i => Hmac.hex_digit (N.land (N.shiftr n (4 * N.of_nat i)) 0xF))
           (List.rev (List.seq 0 width)).

(** *** [json.dumps] with its default arguments

    [ensure_ascii=True], separators [", "] and [": "], [allow_nan=True].
    The keys of every dict are strings, as they are in a parsed JSON
    document. *)
Module Json.
Local Open Scope N_scope.

Definition escape_char (c : N) : str :=
  if c =? 34 then [92; 34]
  else if c =? 92 then [92; 92]
  else if c =? 10 then esc "n"
  else if c =? 13 then esc "r"
  else if c =? 9 then esc "t"
  else if c =? 8 then esc "b"
  else if c =? 12 then esc "f"
  else if (32 <=? c) && (c <=? 126) then [c]
  else if c <? 0x10000 then esc "u" ++ hex_width 4 c
  else
    let n := c - 0x10000 in
    let s1 := N.lor 0xD800 (N.land (N.shiftr n 10) 0x3FF) in
    let s2 := N.lor 0xDC00 (N.land n 0x3FF) in
    esc "u" ++ hex_width 4 s1 ++ esc "u" ++ hex_width 4 s2.

Definition encode_str (s : str) : str :=
  [34] ++ List.concat (List.map escape_char s) ++ [34].

Definition float_text (f : pyfloat) : str :=
  match f with
  | FNan => lit "NaN"
  | FPosInf => lit "Infinity"
  | FNegInf => lit "-Infinity"
  | FFinite r => lit r
  end.

Fixpoint dumps (v : value) : str :=
  match v with
  | VNone => lit "null"
  | VBool true => lit "true"
  | VBool false => lit "false"
  | VInt z => int_repr z
  | VFloat f => float_text f
  | VStr s => encode_str s
  | VList items =>
      lit "[" ++ join (lit ", ") (List.map dumps items) ++ lit "]"
  | VDict entries =>
      lit "{" ++
      join (lit ", ")
           (List.map (fun kv => let '(k, x) := kv in
                                encode_str k ++ lit ": " ++ dumps x) entries)
      ++ lit "}"
  end.
End Json.

(** *** [str(x)] and [repr(x)], as used by f-string interpolation

    [repr] of a string depends on the Unicode database through
    [str.isprintable]; the table is a parameter of the model. *)
Section Formatting.
Variable isprintable : N -> bool.
Local Open Scope N_scope.

Definition repr_char (quote c : N) : str :=
  if (c =? quote) || (c =? 92) then [92; c]
  else if c =? 9 then esc "t"
  else if c =? 10 then esc "n"
  else if c =? 13 then esc "r"
  else if (c <? 32) || (c =? 127) then esc "x" ++ hex_width 2 c
  else if c <? 127 then [c]
  else if isprintable c then [c]
  else if c <=? 0xFF then esc "x" ++ hex_width 2 c
  else if c <=? 0xFFFF then esc "u" ++ hex_width 4 c
  else esc "U" ++ hex_width 8 c.

(** Single quotes, unless the string has a single quote and no double
    quote. *)
Definition repr_quote (s : str) : N :=
  if List.existsb (N.eqb 39) s && negb (List.existsb (N.eqb 34) s) then 34 else 39.

Definition repr_str (s : str) : str :=
  let q := repr_quote s in
  [q] ++ List.concat (List.map (repr_char q) s) ++ [q].

Definition repr_float (f : pyfloat) : str :=
  match f with
  | FNan => lit "nan"
  | FPosInf => lit "inf"
  | FNegInf => lit "-inf"
  | FFinite r => lit r
  end.

Fixpoint py_repr (v : value) : str :=
  match v with
  | VNone => lit "None"
  | VBool true => lit "True"
  | VBool false => lit "False"
  | VInt z => int_repr z
  | VFloat f => repr_float f
  | VStr s => repr_str s
  | VList items =>
      lit "[" ++ join (lit ", ") (List.map py_repr items) ++ lit "]"
  | VDict entries =>
      lit "{" ++
      join (lit ", ")
           (List.map (fun kv => let '(k, x) := kv in
                                repr_str k ++ lit ": " ++ py_repr x) entries)
      ++ lit "}"
  end.

(** [f"{x}"] is [format(x, '')], that is [str(x)]. *)
Definition py_str (v : value) : str :=
  match v with
  | VStr s => s
  | _ => py_repr v
  end.
End Formatting.

(** ** The process state: configuration and log sink

    [os.environ] is read, never written; the log sink only grows. *)
Inductive level : Type := DEBUG | INFO | WARNING | ERROR | CRITICAL.

Record log_record : Type := LogRecord {
  log_level : level;
  log_text : str;
  log_exc_info : bool }.

Record world : Type := World {
  environ : gmap str str;
  log_sink : list log_record }.

(** A computation reads and extends the state and either returns or raises. *)
Definition M (A : Type) : Type := world -> result A * world.

Definition ret {A} (a : A) : M A := fun w => (Ok a, w).
Definition bind {A B} (m : M A) (k : A -> M B) : M B :=
  fun w => match m w with
           | (Ok a, w') => k a w'
           | (Raise e, w') => (Raise e, w')
           end.
Definition lift {A} (r : result A) : M A := fun w => (r, w).

(** [try: body  except Exception: handler] *)
Definition try_except {A} (body : M A) (handler : exn -> M A) : M A :=
  fun w => match body w with
           | (Ok a, w') => (Ok a, w')
           | (Raise e, w') => handler e w'
           end.

Declare Scope py_scope.
Delimit Scope py_scope with py.
Notation "x <- m ;; k" := (bind m (fun x => k))
  (at level 20, m at level 99, k at level 200, only parsing) : py_scope.
Notation "m ;; k" := (bind m (fun _ => k))
  (at level 100, k at level 200, only parsing, right associativity) : py_scope.

Definition os_environ_get (name : str) : M (option str) :=
  fun w => (Ok (environ w !! name), w).

(** *** [utils.logger.StructuredLogger] *)
Module Logger.
(** [_format_log]: keyword arguments, when there are any, are appended
    as a JSON object. *)
Definition _format_log (message : str) (kwargs : list (str * value)) : str :=
  match kwargs with
  | [] => message
  | _ :: _ => message ++ lit " | " ++ Json.dumps (VDict kwargs)
  end.

(** The underlying [logging.Logger] has level [INFO], which lets the
    records of [info] and [error] through to the handlers. *)
Definition emit (l : level) (text : str) (exc_info : bool) : M unit :=
  fun w => (Ok tt, World (environ w) (log_sink w ++ [LogRecord l text exc_info])).

Definition info (message : str) (kwargs : list (str * value)) : M unit :=
  emit INFO (_format_log message kwargs) false.

Definition error (message : str) (exc_info : bool) (kwargs : list (str * value))
  : M unit :=
  emit ERROR (_format_log message kwargs) exc_info.
End Logger.

(** ** [process_notion_webhook] *)

(** [not x] for an [Optional[str]]: true for [None] and for the empty string. *)
Definition falsy (o : option str) : bool :=
  match o with
  | Some (_ :: _) => false
  | _ => true
  end.

(** The string behind an [Optional[str]] that passed the [falsy] test. *)
Definition the (o : option str) : str := default [] o.

Fixpoint assoc (key : str) (entries : list (str * value)) : option value :=
  match entries with
  | [] => None
  | (k, x) :: rest => if bool_decide (k = key) then Some x else assoc key rest
  end.

(** [payload.get(key)]: [None] for a missing key; only a dict has [.get]. *)
Definition get (payload : value) (key : str) : result value :=
  match payload with
  | VDict entries => Ok (default VNone (assoc key entries))
  | _ => Raise AttributeError
  end.

(** [x == 'literal'] *)
Definition eq_str (x : value) (s : str) : bool :=
  match x with
  | VStr s' => bool_decide (s' = s)
  | _ => false
  end.

Section Dispatcher.
Variable isprintable : N -> bool.
Local Open Scope py_scope.

(** The response envelope built at the end of the [try] block. *)
Definition response (event_type facility_id timestamp : value) : value :=
  VDict [ (lit "status", VStr (lit "success"));
          (lit "message",
           VStr (lit "Processed " ++ py_str isprintable event_type ++
                 lit " event for facility " ++ py_str isprintable facility_id));
          (lit "data",
           VDict [ (lit "facility_id", facility_id);
                   (lit "event_type", event_type);
                   (lit "timestamp", timestamp) ]) ].

(** The body of the [try] block. *)
Definition handle_event (payload : value) : M (option value) :=
  event_type <- lift (get payload (lit "type")) ;;
  facility_id <- lift (get payload (lit "facility_id")) ;;
  Logger.info (lit "Received " ++ py_str isprintable event_type ++ lit " event")
              [(lit "facility_id", facility_id)] ;;
  (if eq_str event_type (lit "facility.updated") then
     Logger.info (lit "Processing facility update") [(lit "facility_id", facility_id)]
   else if eq_str event_type (lit "facility.verified") then
     Logger.info (lit "Processing facility verification") [(lit "facility_id", facility_id)]
   else if eq_str event_type (lit "facility.deleted") then
     Logger.info (lit "Processing facility deletion") [(lit "facility_id", facility_id)]
   else ret tt) ;;
  timestamp <- lift (get payload (lit "timestamp")) ;;
  ret (Some (response event_type facility_id timestamp)).

Definition process_notion_webhook (payload : value) (headers : gmap str str)
  : M (option value) :=
  let signature := headers !! lit "Notion-Signature" in
  if falsy signature then
    Logger.error (lit "Missing signature header") false [] ;;
    ret None
  else
    webhook_secret <- os_environ_get (lit "NOTION_WEBHOOK_SECRET") ;;
    if falsy webhook_secret then
      Logger.error (lit "Webhook secret not configured") false [] ;;
      ret None
    else
      payload_bytes <- lift (Utf8.encode (Json.dumps payload)) ;;
      valid <- lift (validate_signature payload_bytes (the signature) (the webhook_secret)) ;;
      if negb valid then
        Logger.error (lit "Invalid webhook signature") false [] ;;
        ret None
      else
        Logger.info (lit "Webhook signature validated") [(lit "source", VStr (lit "notion"))] ;;
        try_except (handle_event payload)
          (fun _ =>
             Logger.error (lit "Error processing webhook") true [] ;;
             ret None).
End Dispatcher.

(** [sub in s] *)
Fixpoint starts_with (p s : str) : bool :=
  match p, s with
  | [], _ => true
  | a :: p', b :: s' => N.eqb a b && starts_with p' s'
  | _ :: _, [] => false
  end.

Fixpoint contains (sub s : str) : bool :=
  starts_with sub s ||
  match s with
  | [] => false
  | _ :: s' => contains sub s'
  end.

(** The printable characters of ASCII, the part of the [isprintable]
    table that does not depend on the Unicode version. *)
Definition ascii_printable (c : N) : bool := ((32 <=? c) && (c <? 127))%N.

(** The state after one more call of the logger. *)
Definition logged (l : level) (message : str) (kwargs : list (str * value))
    (exc_info : bool) (w : world) : world :=
  World (environ w)
        (log_sink w ++ [LogRecord l (Logger._format_log message kwargs) exc_info]).

(** A computation is [log_only] when all it does to the process state is
    append log records, and both its result and those records are fixed
    by the configuration: nothing it does depends on what was logged
    before. *)
Definition log_only {A} (m : M A) : Prop :=
  forall env, exists r new, forall l, m (World env l) = (r, World env (l ++ new)).

(** A lowercase hexadecimal digit, [0-9a-f]. *)
Definition is_lower_hex (c : N) : bool :=
  ((48 <=? c) && (c <=? 57) || (97 <=? c) && (c <=? 102))%N.

(** Every finite float inside [v] is carried by a text of printable ASCII
    characters, as [float.__repr__] produces. *)
Fixpoint floats_printable (v : value) : bool :=
  match v with
  | VFloat (FFinite r) => List.forallb ascii_printable (lit r)
  | VList items => List.forallb floats_printable items
  | VDict entries =>
      List.forallb (fun kv => let '(_, x) := kv in floats_printable x) entries
  | _ => true
  end.

(** ** [StructuredLogger], with the logger objects of [logging]

    [logging.getLogger(name)] returns the one logger object registered
    under [name]: two [StructuredLogger] instances built with the same
    name share it.  An instance is therefore carried by that name, and the
    logger objects live in a registry.  A handler writes to its stream the
    records at or above its level; a logger passes on the records at or
    above its own.  Handlers of ancestor loggers are left out (the root
    logger has none unless another module installs one). *)
Module Logging.
Definition levelno (l : level) : N :=
  match l with
  | DEBUG => 10
  | INFO => 20
  | WARNING => 30
  | ERROR => 40
  | CRITICAL => 50
  end%N.

Inductive stream : Type :=
| Stdout
| LogFile (path : str).

Record handler : Type := Handler {
  handler_stream : stream;
  handler_level : level }.

Record logger_object : Type := LoggerObject {
  logger_level : level;
  logger_handlers : list handler }.

Record state : Type := State {
  loggers : gmap str logger_object;
  written : list (stream * log_record) }.

(** [logging.getLogger(name).setLevel(l)]: the object registered under
    [name], created without handlers when there is none yet. *)
Definition get_logger_set_level (name : str) (l : level) (s : state) : state :=
  State (partial_alter
           (fun o => Some (LoggerObject l (from_option logger_handlers [] o)))
           name (loggers s))
        (written s).

(** [logger.handlers = []] *)
Definition clear_handlers (name : str) (s : state) : state :=
  State (alter (fun lg => LoggerObject (logger_level lg) []) name (loggers s))
        (written s).

(** [logger.addHandler(h)] *)
Definition add_handler (name : str) (h : handler) (s : state) : state :=
  State (alter (fun lg => LoggerObject (logger_level lg) (logger_handlers lg ++ [h]))
               name (loggers s))
        (written s).

(** [Logger.callHandlers] on one record. *)
Definition call_handlers (lg : logger_object) (r : log_record)
  : list (stream * log_record) :=
  List.map (fun h => (handler_stream h, r))
           (List.filter (fun h => (levelno (handler_level h) <=? levelno (log_level r))%N)
                        (logger_handlers lg)).

(** [Logger.log]: nothing happens below the level of the logger. *)
Definition log (name : str) (r : log_record) (s : state) : state :=
  match loggers s !! name with
  | Some lg =>
      if (levelno (logger_level lg) <=? levelno (log_level r))%N
      then State (loggers s) (written s ++ call_handlers lg r)
      else s
  | None => s
  end.
End Logging.

Section StructuredLogger.
(** [__name__] of the module, and whether [logging.FileHandler] can open
    a path for appending. *)
Variable module_name : str.
Variable can_open : str -> bool.

(** [StructuredLogger.__init__(name, level)]: the instance, or nothing when
    [logging.FileHandler] raises; the logger object then keeps what was
    done to it before the failure. *)
Definition __init__ (name : option str) (l : level) (env : gmap str str)
    (s : Logging.state) : option str * Logging.state :=
  let self := if falsy name then module_name else the name in
  let s := Logging.get_logger_set_level self l s in
  let s := Logging.clear_handlers self s in
  let console_handler := Logging.Handler Logging.Stdout l in
  let s := Logging.add_handler self console_handler s in
  let log_file := env !! lit "LOG_FILE" in
  if falsy log_file then (Some self, s)
  else if can_open (the log_file) then
    let file_handler := Logging.Handler (Logging.LogFile (the log_file)) l in
    (Some self, Logging.add_handler self file_handler s)
  else (None, s).
End StructuredLogger.

Module StructuredLogger.
Definition info (self : str) (message : str) (kwargs : list (str * value))
  : Logging.state -> Logging.state :=
  Logging.log self (LogRecord INFO (Logger._format_log message kwargs) false).

Definition warning (self : str) (message : str) (kwargs : list (str * value))
  : Logging.state -> Logging.state :=
  Logging.log self (LogRecord WARNING (Logger._format_log message kwargs) false).

Definition error (self : str) (message : str) (exc_info : bool)
    (kwargs : list (str * value)) : Logging.state -> Logging.state :=
  Logging.log self (LogRecord ERROR (Logger._format_log message kwargs) exc_info).

Definition debug (self : str) (message : str) (kwargs : list (str * value))
  : Logging.state -> Logging.state :=
  Logging.log self (LogRecord DEBUG (Logger._format_log message kwargs) false).

Definition critical (self : str) (message : str) (exc_info : bool)
    (kwargs : list (str * value)) : Logging.state -> Logging.state :=
  Logging.log self (LogRecord CRITICAL (Logger._format_log message kwargs) exc_info).
End StructuredLogger.

(** * Properties *)

(** ** Known answers for the hash and the MAC *)

Example sha256_abc :
  Hmac.hex (Sha256.digest (blit "abc")) =
  lit "ba7816bf8f01cfea414140de5dae2223b00361a396177a9cb410ff61f20015ad".
Proof. vm_compute. reflexivity. Qed.

Example sha256_empty :
  Hmac.hex (Sha256.digest []) =
  lit "e3b0c44298fc1c149afbf4c8996fb92427ae41e4649b934ca495991b7852b855".
Proof. vm_compute. reflexivity. Qed.

Example sha256_two_blocks :
  Hmac.hex (Sha256.digest (blit "abcdbcdecdefdefgefghfghighijhijkijkljklmklmnlmnomnopnopq")) =
  lit "248d6a61d20638b8e5c026930c3e6039a33ce45964ff2167f6ecedd419db06c1".
Proof. vm_compute. reflexivity. Qed.

Example hmac_rfc4231_case2 :
  Hmac.hexdigest (blit "Jefe") (blit "what do ya want for nothing?") =
  lit "5bdcc146bf60754e6a042426089575c75a003f089d2739839dec58b964ec3843".
Proof. vm_compute. reflexivity. Qed.

Example hmac_rfc4231_case6 :
  Hmac.hexdigest (List.repeat xaa 131)
    (blit "Test Using Larger Than Block-Size Key - Hash Key First") =
  lit "60e431591ee0b67f0d8a26aacbf5b77f8e0bc6213728c5140546040f0ee37f54".
Proof. vm_compute. reflexivity. Qed.

Example utf8_samples :
  Utf8.encode [0x41; 0xE9; 0x20AC; 0x1F600]%N =
    Ok [x41; xc3; xa9; xe2; x82; xac; xf0; x9f; x98; x80] /\
  Utf8.encode [0xDC80]%N = Raise UnicodeEncodeError.
Proof. split; reflexivity. Qed.

(** ** The comparison *)

Lemma tscmp_loop_zero acc a b : Hmac.tscmp_loop acc a b = 0%N -> acc = 0%N.
Proof.
  revert acc b. induction a as [|x a IH]; intros acc [|y b] H; simpl in H; auto.
  apply IH in H. apply N.lor_eq_0_iff in H. tauto.
Qed.

Lemma tscmp_loop_eq a : forall b acc,
  List.length a = List.length b ->
  Hmac.tscmp_loop acc a b = 0%N <-> acc = 0%N /\ a = b.
Proof.
  induction a as [|x a IH]; intros [|y b] acc Hlen; simpl in *; try discriminate.
  - tauto.
  - injection Hlen as Hlen. rewrite (IH b _ Hlen), N.lor_eq_0_iff, N.lxor_eq_0_iff.
    split.
    + intros [[-> ->] ->]. auto.
    + intros [-> [= -> ->]]. auto.
Qed.

(** Functionally, [tscmp] is equality of strings. *)
Lemma tscmp_spec a b : Hmac.tscmp a b = bool_decide (a = b).
Proof.
  unfold Hmac.tscmp. destruct (Nat.eqb_spec (List.length a) (List.length b)) as [Hlen|Hlen].
  - destruct (N.eqb_spec (Hmac.tscmp_loop 0 a b) 0) as [H|H].
    + apply tscmp_loop_eq in H as [_ ->]; auto. symmetry. by apply bool_decide_eq_true.
    + symmetry. apply bool_decide_eq_false. intros ->. apply H.
      by apply tscmp_loop_eq.
  - destruct (N.eqb_spec (Hmac.tscmp_loop 1 b b) 0) as [H|H].
    + apply tscmp_loop_zero in H. discriminate.
    + symmetry. apply bool_decide_eq_false. intros ->. by apply Hlen.
Qed.

(** ** The hexadecimal digest *)

Lemma byte_to_N_lt b : (Byte.to_N b < 256)%N.
Proof. pose proof (Byte.to_N_bounded b). lia. Qed.

Lemma byte_to_N_inj a b : Byte.to_N a = Byte.to_N b -> a = b.
Proof.
  intros H. pose proof (Byte.of_to_N a) as Ha. rewrite H, Byte.of_to_N in Ha.
  congruence.
Qed.

Lemma hex_digit_ascii n : (n < 16)%N -> (Hmac.hex_digit n < 128)%N.
Proof. intros H. unfold Hmac.hex_digit. destruct (N.ltb_spec n 10); lia. Qed.

Lemma hex_digit_inj x y :
  (x < 16)%N -> (y < 16)%N -> Hmac.hex_digit x = Hmac.hex_digit y -> x = y.
Proof.
  unfold Hmac.hex_digit. intros Hx Hy.
  destruct (N.ltb_spec x 10), (N.ltb_spec y 10); lia.
Qed.

Lemma hex_of_byte_inj a b : Hmac.hex_of_byte a = Hmac.hex_of_byte b -> a = b.
Proof.
  unfold Hmac.hex_of_byte. intros [= Hhi Hlo].
  pose proof (byte_to_N_lt a). pose proof (byte_to_N_lt b).
  apply hex_digit_inj in Hhi; [|apply N.Div0.div_lt_upper_bound; lia..].
  apply hex_digit_inj in Hlo; [|apply N.mod_lt; lia..].
  apply byte_to_N_inj.
  rewrite (N.div_mod (Byte.to_N a) 16), (N.div_mod (Byte.to_N b) 16) by lia.
  congruence.
Qed.

Lemma hex_inj a : forall b, Hmac.hex a = Hmac.hex b -> a = b.
Proof.
  induction a as [|x a IH]; intros [|y b]; unfold Hmac.hex; simpl;
    try discriminate; auto.
  intros [= Hhi Hlo Hrest]. f_equal.
  - apply hex_of_byte_inj. unfold Hmac.hex_of_byte. congruence.
  - by apply IH.
Qed.

Lemma is_ascii_hex bs : Hmac.is_ascii (Hmac.hex bs) = true.
Proof.
  induction bs as [|b bs IH]; [reflexivity|].
  unfold Hmac.hex, Hmac.is_ascii in *. simpl.
  pose proof (byte_to_N_lt b).
  rewrite IH, !andb_true_r. apply andb_true_intro; split; apply N.ltb_lt;
    apply hex_digit_ascii.
  - apply N.Div0.div_lt_upper_bound; lia.
  - apply N.mod_lt; lia.
Qed.

(** A SHA-256 digest has 32 bytes, its hexadecimal form 64 characters. *)
Lemma length_sha256_digest msg : List.length (Sha256.digest msg) = 32%nat.
Proof.
  unfold Sha256.digest, Sha256.output, Sha256.word_bytes.
  rewrite !length_app, !length_map. reflexivity.
Qed.

Lemma length_hex bs : List.length (Hmac.hex bs) = (2 * List.length bs)%nat.
Proof.
  induction bs as [|b bs IH]; [reflexivity|].
  unfold Hmac.hex in *. simpl. rewrite IH. lia.
Qed.

Lemma length_hexdigest key msg : List.length (Hmac.hexdigest key msg) = 64%nat.
Proof.
  unfold Hmac.hexdigest, Hmac.digest. by rewrite length_hex, length_sha256_digest.
Qed.

Lemma py_not_hexdigest key msg : py_not (Hmac.hexdigest key msg) = false.
Proof.
  pose proof (length_hexdigest key msg) as H.
  by destruct (Hmac.hexdigest key msg).
Qed.

Lemma py_not_false {A} (l : list A) : l <> [] -> py_not l = false.
Proof. by destruct l. Qed.

Lemma py_not_true {A} (l : list A) : py_not l = true <-> l = [].
Proof. by destruct l. Qed.

(** Comparing a digest with any ASCII string decides their equality. *)
Lemma compare_digest_hex bs s :
  Hmac.is_ascii s = true ->
  Hmac.compare_digest (Hmac.hex bs) s = Ok (bool_decide (Hmac.hex bs = s)).
Proof.
  intros Hs. unfold Hmac.compare_digest.
  by rewrite is_ascii_hex, Hs, tscmp_spec.
Qed.

(** ** [validate_signature] *)

(** What the function computes once the three arguments are non-empty. *)
Lemma validate_signature_nonempty payload signature secret :
  payload <> [] -> signature <> [] -> secret <> [] ->
  validate_signature payload signature secret =
  rbind (computed_signature secret payload)
        (fun computed => Hmac.compare_digest computed signature).
Proof.
  intros Hp Hs Hk. unfold validate_signature.
  by rewrite !py_not_false.
Qed.

(** C1: for a non-empty payload and a non-empty secret, the hexadecimal
    HMAC-SHA256 of the payload under the secret, as the function itself
    computes it, validates: the signature round trip succeeds. *)
Theorem validate_signature_roundtrip (payload : bytes) (secret s : str) :
  payload <> [] -> secret <> [] ->
  computed_signature secret payload = Ok s ->
  validate_signature payload s secret = Ok true.
Proof.
  intros Hp Hk Hs.
  unfold computed_signature in Hs.
  destruct (Utf8.encode secret) as [key|e] eqn:Hkey; simpl in Hs; [|discriminate].
  injection Hs as <-.
  unfold validate_signature, computed_signature.
  rewrite (py_not_false payload Hp), (py_not_false secret Hk), py_not_hexdigest, Hkey.
  simpl. unfold Hmac.hexdigest.
  rewrite compare_digest_hex by apply is_ascii_hex.
  by rewrite bool_decide_eq_true_2.
Qed.

Lemma validate_signature_roundtrip_witness :
  validate_signature (blit "{}")
    (lit "5356d278f9946a1085dd7caa23dfcece9d564599852683bb1d3f7d78f28ecb8b") (lit "s3")
  = Ok true.
Proof.
  apply (validate_signature_roundtrip (blit "{}") (lit "s3")).
  - discriminate.
  - discriminate.
  - vm_compute. reflexivity.
Defined.

(** The guard of the first line. *)
Lemma validate_signature_guard payload signature secret :
  py_not payload || py_not signature || py_not secret = true ->
  validate_signature payload signature secret = Ok false.
Proof. intros H. unfold validate_signature. by rewrite H. Qed.

(** C2: the function returns false as soon as the payload, the presented
    signature or the secret is empty, whatever the other two are (also a
    secret that cannot be encoded, or a signature that cannot be
    compared): nothing is computed on them. *)
Theorem validate_signature_fails_closed (payload : bytes) (signature secret : str) :
  payload = [] \/ signature = [] \/ secret = [] ->
  validate_signature payload signature secret = Ok false.
Proof.
  intros H. apply validate_signature_guard.
  destruct H as [->|[->| ->]]; simpl; rewrite ?orb_true_r; reflexivity.
Qed.

Lemma validate_signature_fails_closed_witness :
  validate_signature [] [233%N] (lit "s3") = Ok false /\
  validate_signature (blit "{}") [] [0xDC80%N] = Ok false /\
  validate_signature (blit "{}") [233%N] [] = Ok false.
Proof.
  split; [|split].
  - apply (validate_signature_fails_closed [] [233%N] (lit "s3")).
    left. reflexivity.
  - apply (validate_signature_fails_closed (blit "{}") [] [0xDC80%N]).
    right. left. reflexivity.
  - apply (validate_signature_fails_closed (blit "{}") [233%N] []).
    right. right. reflexivity.
Defined.

(** Outside the guard the function is not total: a secret with a lone
    surrogate cannot be encoded, and a presented signature with a
    character outside ASCII cannot be compared. *)
Lemma validate_signature_bad_secret payload signature secret e :
  payload <> [] -> signature <> [] -> secret <> [] ->
  Utf8.encode secret = Raise e ->
  validate_signature payload signature secret = Raise e.
Proof.
  intros Hp Hs Hk He. rewrite validate_signature_nonempty by done.
  unfold computed_signature. by rewrite He.
Qed.

Lemma validate_signature_non_ascii payload signature secret key :
  payload <> [] -> signature <> [] -> secret <> [] ->
  Utf8.encode secret = Ok key ->
  Hmac.is_ascii signature = false ->
  validate_signature payload signature secret = Raise TypeError.
Proof.
  intros Hp Hs Hk Hkey Hsig. rewrite validate_signature_nonempty by done.
  unfold computed_signature. rewrite Hkey. simpl.
  unfold Hmac.compare_digest. by rewrite Hsig, andb_false_r.
Qed.

Lemma validate_signature_ascii payload signature secret key :
  payload <> [] -> signature <> [] -> secret <> [] ->
  Utf8.encode secret = Ok key ->
  Hmac.is_ascii signature = true ->
  validate_signature payload signature secret =
  Ok (bool_decide (Hmac.hexdigest key payload = signature)).
Proof.
  intros Hp Hs Hk Hkey Hsig. rewrite validate_signature_nonempty by done.
  unfold computed_signature. rewrite Hkey. simpl.
  by apply compare_digest_hex.
Qed.

(** X2: the function raises in two cases only, both with all three
    arguments non-empty: the secret cannot be encoded as UTF-8 (the
    encoder's exception), or it can and the presented signature has a
    character outside ASCII ([TypeError] from [hmac.compare_digest]). *)
Lemma validate_signature_raises payload signature secret e :
  validate_signature payload signature secret = Raise e <->
  payload <> [] /\ signature <> [] /\ secret <> [] /\
  (Utf8.encode secret = Raise e \/
   (exists key, Utf8.encode secret = Ok key) /\
   Hmac.is_ascii signature = false /\ e = TypeError).
Proof.
  split.
  - intros H.
    assert (payload <> [] /\ signature <> [] /\ secret <> []) as (Hp & Hs & Hk).
    { repeat split; intros ->; rewrite validate_signature_guard in H;
        solve [discriminate | simpl; rewrite ?orb_true_r; reflexivity]. }
    repeat split; try done.
    destruct (Utf8.encode secret) as [key|e'] eqn:Hkey.
    + right. destruct (Hmac.is_ascii signature) eqn:Hascii.
      * by rewrite (validate_signature_ascii _ _ _ key) in H.
      * rewrite (validate_signature_non_ascii _ _ _ key) in H by done.
        injection H as <-. eauto.
    + left. rewrite (validate_signature_bad_secret _ _ _ e') in H by done.
      congruence.
  - intros (Hp & Hs & Hk & [He|([key Hkey] & Hascii & ->)]).
    + by apply validate_signature_bad_secret.
    + by apply (validate_signature_non_ascii _ _ _ key).
Qed.

(** C5, as amended: for a non-empty payload and two non-empty secrets that
    encode to the keys [key1] and [key2], the signature made under the
    first secret validates under the second exactly when the two keys
    give the same HMAC-SHA256 digest of the payload; it is rejected
    whenever the digests differ. *)
Theorem validate_signature_other_secret
    (payload : bytes) (secret1 secret2 : str) (key1 key2 : bytes) :
  payload <> [] -> secret1 <> [] -> secret2 <> [] ->
  Utf8.encode secret1 = Ok key1 ->
  Utf8.encode secret2 = Ok key2 ->
  validate_signature payload (Hmac.hexdigest key1 payload) secret2 =
  Ok (bool_decide (Hmac.digest key1 payload = Hmac.digest key2 payload)).
Proof.
  intros Hp _ Hk2 _ Hkey2.
  assert (Hmac.hexdigest key1 payload <> []) as Hne.
  { intros H. pose proof (py_not_hexdigest key1 payload) as Hn.
    by rewrite H in Hn. }
  rewrite (validate_signature_ascii _ _ _ key2 Hp Hne Hk2 Hkey2 (is_ascii_hex _)).
  f_equal. apply bool_decide_ext. unfold Hmac.hexdigest. split.
  - intros H. symmetry. by apply hex_inj.
  - by intros ->.
Qed.

Lemma validate_signature_other_secret_witness :
  validate_signature (blit "x")
    (lit "4fc3b7eaf34d7e594a6f51d9517ba543abf41067b27587ffd82ba3584e4d3cdd")
    (lit "kez")
  = Ok false.
Proof.
  apply (validate_signature_other_secret
           (blit "x") (lit "key") (lit "kez") (blit "key") (blit "kez"));
    solve [discriminate | reflexivity].
Defined.

(** C5 as stated fails: HMAC fills a short key with zero bytes, so the
    distinct secrets ["a"] and ["a\0"] sign the payload [b"x"] alike, and
    the signature made under the first validates under the second. *)
Lemma validate_signature_distinct_secrets_counterexample :
  let payload := blit "x" in
  let secret1 := lit "a" in
  let secret2 := [97%N; 0%N] in
  payload <> [] /\ secret1 <> [] /\ secret2 <> [] /\ secret1 <> secret2 /\
  computed_signature secret1 payload =
    Ok (lit "399b97cd540c0883ac6d1fc22d4e72f6300007cf5954e5a1b306a9e4e02f9029") /\
  validate_signature payload
    (lit "399b97cd540c0883ac6d1fc22d4e72f6300007cf5954e5a1b306a9e4e02f9029")
    secret2 = Ok true.
Proof.
  cbv zeta. split; [|split; [|split; [|split; [|split]]]];
    try discriminate; vm_compute; reflexivity.
Qed.

(** The reason, for every key shorter than a block: a trailing zero byte
    does not change the key block, hence not the digest. *)
Lemma block_key_trailing_zero key :
  (List.length key < Hmac.block_size)%nat ->
  Hmac.block_key (key ++ [x00]) = Hmac.block_key key.
Proof.
  intros Hlen. unfold Hmac.block_key, Hmac.block_size in *.
  rewrite length_app. simpl.
  destruct (Nat.ltb_spec 64 (List.length key + 1)); [lia|].
  destruct (Nat.ltb_spec 64 (List.length key)); [lia|].
  rewrite length_app, <- app_assoc. simpl. f_equal.
  replace (64 - List.length key)%nat with (S (64 - (List.length key + 1))) by lia.
  reflexivity.
Qed.

Lemma hmac_trailing_zero key msg :
  (List.length key < Hmac.block_size)%nat ->
  Hmac.digest (key ++ [x00]) msg = Hmac.digest key msg.
Proof. intros H. unfold Hmac.digest. by rewrite block_key_trailing_zero. Qed.

(** ** Encoding never fails on what [json.dumps] returns *)

Lemma utf8_encode_char_total c :
  Utf8.is_surrogate c = false -> exists bs, Utf8.encode_char c = Ok bs.
Proof.
  intros H. unfold Utf8.encode_char. rewrite H.
  repeat match goal with
         | |- context [if ?b then _ else _] => destruct b
         end; eauto.
Qed.

Lemma utf8_encode_total s :
  Forall (fun c => Utf8.is_surrogate c = false) s ->
  exists bs, Utf8.encode s = Ok bs.
Proof.
  induction 1 as [|c s Hc _ [rest IH]]; simpl; [eauto|].
  destruct (utf8_encode_char_total c Hc) as [bs ->]. rewrite IH. simpl. eauto.
Qed.

(** The signature of a request exists for every secret free of surrogates. *)
Lemma computed_signature_total secret payload :
  Forall (fun c => Utf8.is_surrogate c = false) secret ->
  exists s, computed_signature secret payload = Ok s.
Proof.
  intros H. destruct (utf8_encode_total secret H) as [key Hkey].
  unfold computed_signature. rewrite Hkey. simpl. eauto.
Qed.

(** Strings made of Latin-1 code points only. *)
Local Abbreviation latin1 := (Forall (fun c : N => (c < 256)%N)).

Lemma latin1_not_surrogate s :
  latin1 s -> Forall (fun c => Utf8.is_surrogate c = false) s.
Proof.
  intros H. eapply Forall_impl; [exact H|].
  intros c Hc. simpl in Hc. unfold Utf8.is_surrogate.
  apply andb_false_iff. left. apply N.leb_gt. lia.
Qed.

Lemma latin1_lit s : latin1 (lit s).
Proof.
  unfold lit. apply Forall_forall. intros c Hc.
  apply list_elem_of_In, in_map_iff in Hc as (a & <- & _).
  apply N_ascii_bounded.
Qed.

Lemma latin1_esc s : latin1 (esc s).
Proof. unfold esc. constructor; [lia|apply latin1_lit]. Qed.

Lemma hex_digit_small n : (n < 16)%N -> (Hmac.hex_digit n < 256)%N.
Proof. intros H. pose proof (hex_digit_ascii n H). lia. Qed.

Lemma latin1_hex_width width n : latin1 (hex_width width n).
Proof.
  unfold hex_width. apply Forall_forall. intros c Hc.
  apply list_elem_of_In, in_map_iff in Hc as (i & <- & _).
  apply hex_digit_small.
  change 0xF%N with (N.ones 4). rewrite N.land_ones.
  apply N.mod_lt. discriminate.
Qed.

Lemma latin1_concat (parts : list str) :
  Forall latin1 parts -> latin1 (List.concat parts).
Proof.
  induction 1 as [|p parts Hp _ IH]; simpl; [constructor|].
  by apply Forall_app.
Qed.

Lemma latin1_join sep (parts : list str) :
  latin1 sep -> Forall latin1 parts -> latin1 (join sep parts).
Proof.
  intros Hsep. induction 1 as [|p parts Hp Hparts IH]; simpl; [constructor|].
  destruct parts as [|q parts]; [done|].
  apply Forall_app. split; [done|]. by apply Forall_app.
Qed.

Lemma latin1_escape_char c : latin1 (Json.escape_char c).
Proof.
  unfold Json.escape_char.
  repeat match goal with
         | |- context [if ?b then _ else _] => destruct b eqn:?
         end;
    repeat first [ apply latin1_esc | apply latin1_lit | apply latin1_hex_width
                 | apply Forall_app; split
                 | constructor; [lia|] | constructor ].
  match goal with
  | H : (_ <=? c)%N && (c <=? _)%N = true |- _ =>
      apply andb_true_iff in H as [_ H%N.leb_le]; lia
  end.
Qed.

Lemma latin1_encode_str s : latin1 (Json.encode_str s).
Proof.
  unfold Json.encode_str. apply Forall_app. split; [by repeat constructor|].
  apply Forall_app. split; [|by repeat constructor].
  apply latin1_concat, Forall_forall. intros p Hp.
  apply list_elem_of_In, in_map_iff in Hp as (c & <- & _).
  apply latin1_escape_char.
Qed.

(** Induction on a value, with the hypothesis available for every item
    of a list and every entry of a dict. *)
Lemma value_nested_ind (P : value -> Prop) :
  P VNone ->
  (forall b, P (VBool b)) ->
  (forall z, P (VInt z)) ->
  (forall f, P (VFloat f)) ->
  (forall s, P (VStr s)) ->
  (forall items, Forall P items -> P (VList items)) ->
  (forall entries, Forall (fun kv => P (snd kv)) entries -> P (VDict entries)) ->
  forall v, P v.
Proof.
  intros HNone HBool HInt HFloat HStr HList HDict.
  fix IH 1. intros [ | b | z | f | s | items | entries ].
  - exact HNone.
  - apply HBool.
  - apply HInt.
  - apply HFloat.
  - apply HStr.
  - apply HList. induction items as [|x items IHitems]; constructor;
      [apply IH | exact IHitems].
  - apply HDict. induction entries as [|[k x] entries IHentries]; constructor;
      [apply IH | exact IHentries].
Qed.

Lemma dumps_list items :
  Json.dumps (VList items) =
  lit "[" ++ join (lit ", ") (List.map Json.dumps items) ++ lit "]".
Proof. reflexivity. Qed.

Lemma dumps_dict entries :
  Json.dumps (VDict entries) =
  lit "{" ++
  join (lit ", ")
       (List.map (fun kv => Json.encode_str (fst kv) ++ lit ": " ++ Json.dumps (snd kv))
                 entries)
  ++ lit "}".
Proof.
  change (Json.dumps (VDict entries)) with
    (lit "{" ++
     join (lit ", ")
          (List.map (fun kv => let '(k, x) := kv in
                               Json.encode_str k ++ lit ": " ++ Json.dumps x) entries)
     ++ lit "}").
  do 3 f_equal. apply map_ext. by intros [k x].
Qed.

Lemma latin1_dumps v : latin1 (Json.dumps v).
Proof.
  induction v as [ | [|] | z | [ | | | r] | s | items IH | entries IH ]
    using value_nested_ind;
    try exact (latin1_lit _); try exact (latin1_encode_str _).
  - rewrite dumps_list.
    apply Forall_app. split; [apply latin1_lit|].
    apply Forall_app. split; [|apply latin1_lit].
    apply latin1_join; [apply latin1_lit|].
    induction IH; cbn [List.map]; constructor; auto.
  - rewrite dumps_dict.
    apply Forall_app. split; [apply latin1_lit|].
    apply Forall_app. split; [|apply latin1_lit].
    apply latin1_join; [apply latin1_lit|].
    induction IH as [|[k x] entries Hx _ IH]; cbn [List.map]; constructor; auto.
    apply Forall_app. split; [apply latin1_encode_str|].
    apply Forall_app. split; [apply latin1_lit|done].
Qed.

(** [json.dumps(payload).encode('utf-8')] always succeeds. *)
Lemma payload_bytes_total payload :
  exists payload_bytes, Utf8.encode (Json.dumps payload) = Ok payload_bytes.
Proof. apply utf8_encode_total, latin1_not_surrogate, latin1_dumps. Qed.

(** ** The dispatcher *)

Lemma validate_signature_true payload signature secret :
  validate_signature payload signature secret = Ok true ->
  payload <> [] /\ signature <> [] /\ secret <> [].
Proof.
  intros H. repeat split; intros ->;
    rewrite validate_signature_guard in H;
    solve [discriminate | simpl; rewrite ?orb_true_r; reflexivity].
Qed.

Lemma falsy_cons c s : falsy (Some (c :: s)) = false.
Proof. reflexivity. Qed.

Lemma falsy_nonempty s : s <> [] -> falsy (Some s) = false.
Proof. by destruct s. Qed.

Section DispatcherProperties.
Variable isprintable : N -> bool.

Local Abbreviation process := (process_notion_webhook isprintable).
Local Abbreviation signature_header := (lit "Notion-Signature").
Local Abbreviation secret_variable := (lit "NOTION_WEBHOOK_SECRET").

(** *** The four rejections *)

Lemma process_missing_signature payload headers w :
  falsy (headers !! signature_header) = true ->
  process payload headers w =
  (Ok None, logged ERROR (lit "Missing signature header") [] false w).
Proof.
  intros H. unfold process_notion_webhook. rewrite H. reflexivity.
Qed.

Lemma process_missing_secret payload headers w :
  falsy (headers !! signature_header) = false ->
  falsy (environ w !! secret_variable) = true ->
  process payload headers w =
  (Ok None, logged ERROR (lit "Webhook secret not configured") [] false w).
Proof.
  intros Hs Hk. unfold process_notion_webhook. rewrite Hs.
  unfold bind, os_environ_get. rewrite Hk. reflexivity.
Qed.

(** Past the two guards, the outcome is that of [validate_signature] on
    the re-serialised payload. *)
Lemma process_validation payload headers w signature secret :
  headers !! signature_header = Some signature -> signature <> [] ->
  environ w !! secret_variable = Some secret -> secret <> [] ->
  process payload headers w =
  match rbind (Utf8.encode (Json.dumps payload))
              (fun payload_bytes => validate_signature payload_bytes signature secret) with
  | Raise e => (Raise e, w)
  | Ok false => (Ok None, logged ERROR (lit "Invalid webhook signature") [] false w)
  | Ok true =>
      try_except (handle_event isprintable payload)
        (fun _ w' => (Ok None, logged ERROR (lit "Error processing webhook") [] true w'))
        (logged INFO (lit "Webhook signature validated")
                [(lit "source", VStr (lit "notion"))] false w)
  end.
Proof.
  intros Hs Hs' Hk Hk'. unfold process_notion_webhook.
  rewrite Hs, (falsy_nonempty _ Hs').
  unfold bind at 1. unfold os_environ_get. rewrite Hk, (falsy_nonempty _ Hk').
  unfold bind at 1. unfold lift at 1.
  destruct (Utf8.encode (Json.dumps payload)) as [payload_bytes|e]; [|reflexivity].
  unfold bind at 1. unfold lift at 1. simpl rbind. simpl the.
  destruct (validate_signature payload_bytes signature secret) as [[|]|e];
    reflexivity.
Qed.


Lemma process_valid_signature payload headers w signature secret payload_bytes :
  headers !! signature_header = Some signature ->
  environ w !! secret_variable = Some secret ->
  Utf8.encode (Json.dumps payload) = Ok payload_bytes ->
  validate_signature payload_bytes signature secret = Ok true ->
  process payload headers w =
  try_except (handle_event isprintable payload)
    (fun _ w' => (Ok None, logged ERROR (lit "Error processing webhook") [] true w'))
    (logged INFO (lit "Webhook signature validated")
            [(lit "source", VStr (lit "notion"))] false w).
Proof.
  intros Hs Hk Hb Hv.
  destruct (validate_signature_true _ _ _ Hv) as (_ & Hs' & Hk').
  rewrite (process_validation _ _ _ _ _ Hs Hs' Hk Hk'), Hb. simpl. by rewrite Hv.
Qed.

(** An exception inside the [try] block is caught and logged. *)
Lemma process_dispatch_fault payload headers w signature secret payload_bytes e w' :
  headers !! signature_header = Some signature ->
  environ w !! secret_variable = Some secret ->
  Utf8.encode (Json.dumps payload) = Ok payload_bytes ->
  validate_signature payload_bytes signature secret = Ok true ->
  handle_event isprintable payload
    (logged INFO (lit "Webhook signature validated")
            [(lit "source", VStr (lit "notion"))] false w) = (Raise e, w') ->
  process payload headers w =
  (Ok None, logged ERROR (lit "Error processing webhook") [] true w').
Proof.
  intros Hs Hk Hb Hv He.
  rewrite (process_valid_signature _ _ _ _ _ _ Hs Hk Hb Hv).
  unfold try_except. by rewrite He.
Qed.


(** A payload that is not a dict has no [.get]: the fault is caught. *)
Lemma handle_event_not_dict payload w :
  (forall entries, payload <> VDict entries) ->
  handle_event isprintable payload w = (Raise AttributeError, w).
Proof.
  intros H. destruct payload; try reflexivity. by destruct (H entries).
Qed.

Lemma eq_str_false x s : x <> VStr s -> eq_str x s = false.
Proof.
  intros H. destruct x; try reflexivity. simpl.
  apply bool_decide_eq_false. congruence.
Qed.

Lemma eq_str_true x s : eq_str x s = true <-> x = VStr s.
Proof.
  destruct x; simpl; try (split; [discriminate|congruence]).
  rewrite bool_decide_eq_true. split; congruence.
Qed.

(** On a dict the [try] block never raises, and its result is the
    envelope over the three fields read with [.get]. *)
Lemma handle_event_dict_result entries w :
  fst (handle_event isprintable (VDict entries) w) =
  Ok (Some (response isprintable
              (default VNone (assoc (lit "type") entries))
              (default VNone (assoc (lit "facility_id") entries))
              (default VNone (assoc (lit "timestamp") entries)))).
Proof.
  cbv [handle_event bind lift get ret Logger.info Logger.emit].
  repeat match goal with
         | |- context [if ?b then _ else _] => destruct b
         end; reflexivity.
Qed.

(** For a type that is none of the three handled ones, the only record
    logged inside the [try] block is the reception notice. *)
Lemma handle_event_dict_unrecognized entries w :
  let event_type := default VNone (assoc (lit "type") entries) in
  let facility_id := default VNone (assoc (lit "facility_id") entries) in
  let timestamp := default VNone (assoc (lit "timestamp") entries) in
  event_type <> VStr (lit "facility.updated") ->
  event_type <> VStr (lit "facility.verified") ->
  event_type <> VStr (lit "facility.deleted") ->
  handle_event isprintable (VDict entries) w =
  (Ok (Some (response isprintable event_type facility_id timestamp)),
   logged INFO (lit "Received " ++ py_str isprintable event_type ++ lit " event")
          [(lit "facility_id", facility_id)] false w).
Proof.
  intros event_type facility_id timestamp H1 H2 H3.
  cbv [handle_event bind lift get ret Logger.info Logger.emit].
  fold event_type facility_id timestamp.
  rewrite (eq_str_false _ _ H1), (eq_str_false _ _ H2), (eq_str_false _ _ H3).
  reflexivity.
Qed.
End DispatcherProperties.

(** *** Accepted requests *)

Section ValidSignature.
Variable isprintable : N -> bool.
Variables (entries : list (str * value)) (headers : gmap str str) (w : world).
Variables (signature secret : str) (payload_bytes : bytes).

(** The signature header validates against the configured secret. *)
Hypothesis signature_present : headers !! lit "Notion-Signature" = Some signature.
Hypothesis secret_configured : environ w !! lit "NOTION_WEBHOOK_SECRET" = Some secret.
Hypothesis payload_serialised :
  Utf8.encode (Json.dumps (VDict entries)) = Ok payload_bytes.
Hypothesis signature_valid :
  validate_signature payload_bytes signature secret = Ok true.

Local Abbreviation process := (process_notion_webhook isprintable).
Local Abbreviation event_type := (default VNone (assoc (lit "type") entries)).
Local Abbreviation facility_id := (default VNone (assoc (lit "facility_id") entries)).
Local Abbreviation timestamp := (default VNone (assoc (lit "timestamp") entries)).

Lemma process_dict_result :
  fst (process (VDict entries) headers w) =
  Ok (Some (response isprintable event_type facility_id timestamp)).
Proof using All.
  rewrite (process_valid_signature isprintable _ _ _ _ _ _
             signature_present secret_configured payload_serialised signature_valid).
  unfold try_except.
  pose proof (handle_event_dict_result isprintable entries
                (logged INFO (lit "Webhook signature validated")
                        [(lit "source", VStr (lit "notion"))] false w)) as H.
  destruct (handle_event _ _ _) as [[r|e] w']; simpl in H; [|discriminate].
  exact H.
Qed.

(** C6: a validated payload of type ["facility.updated"] for facility
    ["42"] is answered with status ["success"], a message that contains
    ["facility.updated"] and ["42"], and a [data] object that echoes the
    facility id, the event type and the timestamp of the payload. *)
Theorem process_facility_updated :
  assoc (lit "type") entries = Some (VStr (lit "facility.updated")) ->
  assoc (lit "facility_id") entries = Some (VStr (lit "42")) ->
  let message := lit "Processed facility.updated event for facility 42" in
  fst (process (VDict entries) headers w) =
  Ok (Some (VDict [ (lit "status", VStr (lit "success"));
                    (lit "message", VStr message);
                    (lit "data",
                     VDict [ (lit "facility_id", VStr (lit "42"));
                             (lit "event_type", VStr (lit "facility.updated"));
                             (lit "timestamp", timestamp) ]) ])) /\
  contains (lit "facility.updated") message = true /\
  contains (lit "42") message = true.
Proof using All.
  intros Ht Hf message. split; [|split; reflexivity].
  rewrite process_dict_result, Ht, Hf. reflexivity.
Qed.

(** C7: a validated payload whose type is none of ["facility.updated"],
    ["facility.verified"], ["facility.deleted"] runs no handler branch
    (the call logs the validation and the reception, nothing else) and
    is still answered with the success envelope. *)
Theorem process_unrecognized_event_type :
  event_type <> VStr (lit "facility.updated") ->
  event_type <> VStr (lit "facility.verified") ->
  event_type <> VStr (lit "facility.deleted") ->
  process (VDict entries) headers w =
  (Ok (Some (response isprintable event_type facility_id timestamp)),
   World (environ w)
         (log_sink w ++
          [ LogRecord INFO
              (Logger._format_log (lit "Webhook signature validated")
                                  [(lit "source", VStr (lit "notion"))]) false;
            LogRecord INFO
              (Logger._format_log
                 (lit "Received " ++ py_str isprintable event_type ++ lit " event")
                 [(lit "facility_id", facility_id)]) false ])) /\
  get (response isprintable event_type facility_id timestamp) (lit "status") =
  Ok (VStr (lit "success")).
Proof using All.
  intros H1 H2 H3. split; [|reflexivity].
  rewrite (process_valid_signature isprintable _ _ _ _ _ _
             signature_present secret_configured payload_serialised signature_valid).
  unfold try_except.
  rewrite (handle_event_dict_unrecognized isprintable entries _ H1 H2 H3).
  unfold logged. simpl. by rewrite <- app_assoc.
Qed.

(** C10: a validated payload without a ['type'] key, or without a
    ['facility_id'] key, is still answered with the success envelope;
    the missing field is [null] in [data] and reads [None] in the
    message. *)
Theorem process_missing_fields :
  (assoc (lit "type") entries = None ->
   fst (process (VDict entries) headers w) =
   Ok (Some (VDict [ (lit "status", VStr (lit "success"));
                     (lit "message",
                      VStr (lit "Processed None event for facility " ++
                            py_str isprintable facility_id));
                     (lit "data",
                      VDict [ (lit "facility_id", facility_id);
                              (lit "event_type", VNone);
                              (lit "timestamp", timestamp) ]) ]))) /\
  (assoc (lit "facility_id") entries = None ->
   fst (process (VDict entries) headers w) =
   Ok (Some (VDict [ (lit "status", VStr (lit "success"));
                     (lit "message",
                      VStr (lit "Processed " ++ py_str isprintable event_type ++
                            lit " event for facility None"));
                     (lit "data",
                      VDict [ (lit "facility_id", VNone);
                              (lit "event_type", event_type);
                              (lit "timestamp", timestamp) ]) ]))).
Proof using All.
  split; intros H; rewrite process_dict_result, H; reflexivity.
Qed.
End ValidSignature.

Lemma process_facility_updated_witness :
  let entries := [ (lit "type", VStr (lit "facility.updated"));
                   (lit "facility_id", VStr (lit "42"));
                   (lit "timestamp", VStr (lit "2024-01-01T00:00:00Z")) ] in
  let headers : gmap str str :=
    {[ lit "Notion-Signature" :=
         lit "75f4ae94dce9096f4c1304d9b9de73faf9fb405368210338ea25779ab98db77a" ]} in
  let w := World {[ lit "NOTION_WEBHOOK_SECRET" := lit "s3" ]} [] in
  let message := lit "Processed facility.updated event for facility 42" in
  fst (process_notion_webhook ascii_printable (VDict entries) headers w) =
  Ok (Some (VDict [ (lit "status", VStr (lit "success"));
                    (lit "message", VStr message);
                    (lit "data",
                     VDict [ (lit "facility_id", VStr (lit "42"));
                             (lit "event_type", VStr (lit "facility.updated"));
                             (lit "timestamp", VStr (lit "2024-01-01T00:00:00Z")) ]) ])) /\
  contains (lit "facility.updated") message = true /\
  contains (lit "42") message = true.
Proof.
  intros entries headers w.
  apply (process_facility_updated ascii_printable entries headers w
           (lit "75f4ae94dce9096f4c1304d9b9de73faf9fb405368210338ea25779ab98db77a")
           (lit "s3")
           (blit "{" ++ [x22] ++ blit "type" ++ [x22] ++ blit ": " ++ [x22] ++
            blit "facility.updated" ++ [x22] ++ blit ", " ++ [x22] ++
            blit "facility_id" ++ [x22] ++ blit ": " ++ [x22] ++ blit "42" ++ [x22] ++
            blit ", " ++ [x22] ++ blit "timestamp" ++ [x22] ++ blit ": " ++ [x22] ++
            blit "2024-01-01T00:00:00Z" ++ [x22] ++ blit "}"));
    vm_compute; reflexivity.
Defined.

Lemma process_unrecognized_event_type_witness :
  let entries := [ (lit "type", VStr (lit "facility.archived"));
                   (lit "facility_id", VStr (lit "42")) ] in
  let headers : gmap str str :=
    {[ lit "Notion-Signature" :=
         lit "9b7ed482f187eeb56ea616825f1290228a49b4dbbe99f5df5d10c8a34a6eda8d" ]} in
  let w := World {[ lit "NOTION_WEBHOOK_SECRET" := lit "s3" ]} [] in
  process_notion_webhook ascii_printable (VDict entries) headers w =
  (Ok (Some (response ascii_printable (VStr (lit "facility.archived"))
                      (VStr (lit "42")) VNone)),
   World (environ w)
         [ LogRecord INFO
             (Logger._format_log (lit "Webhook signature validated")
                                 [(lit "source", VStr (lit "notion"))]) false;
           LogRecord INFO
             (Logger._format_log (lit "Received facility.archived event")
                                 [(lit "facility_id", VStr (lit "42"))]) false ]) /\
  get (response ascii_printable (VStr (lit "facility.archived")) (VStr (lit "42")) VNone)
      (lit "status") = Ok (VStr (lit "success")).
Proof.
  intros entries headers w.
  apply (process_unrecognized_event_type ascii_printable entries headers w
           (lit "9b7ed482f187eeb56ea616825f1290228a49b4dbbe99f5df5d10c8a34a6eda8d")
           (lit "s3")
           (blit "{" ++ [x22] ++ blit "type" ++ [x22] ++ blit ": " ++ [x22] ++
            blit "facility.archived" ++ [x22] ++ blit ", " ++ [x22] ++
            blit "facility_id" ++ [x22] ++ blit ": " ++ [x22] ++ blit "42" ++ [x22] ++
            blit "}"));
    solve [vm_compute; reflexivity | discriminate].
Defined.

Lemma process_missing_fields_witness :
  let entries := [ (lit "timestamp", VInt 5) ] in
  let headers : gmap str str :=
    {[ lit "Notion-Signature" :=
         lit "5a5da29bb3bcfefc04f1d7a6a5340bf8705268a6332b23c605ef2e310dfd0498" ]} in
  let w := World {[ lit "NOTION_WEBHOOK_SECRET" := lit "s3" ]} [] in
  fst (process_notion_webhook ascii_printable (VDict entries) headers w) =
  Ok (Some (VDict [ (lit "status", VStr (lit "success"));
                    (lit "message", VStr (lit "Processed None event for facility None"));
                    (lit "data",
                     VDict [ (lit "facility_id", VNone);
                             (lit "event_type", VNone);
                             (lit "timestamp", VInt 5) ]) ])).
Proof.
  intros entries headers w.
  apply (process_missing_fields ascii_printable entries headers w
           (lit "5a5da29bb3bcfefc04f1d7a6a5340bf8705268a6332b23c605ef2e310dfd0498")
           (lit "s3")
           (blit "{" ++ [x22] ++ blit "timestamp" ++ [x22] ++ blit ": 5}"));
    vm_compute; reflexivity.
Defined.

(** *** Statelessness *)

Lemma log_only_ret {A} (a : A) : log_only (ret a).
Proof. intros env. exists (Ok a), []. intros l. unfold ret. by rewrite app_nil_r. Qed.

Lemma log_only_lift {A} (r : result A) : log_only (lift r).
Proof. intros env. exists r, []. intros l. unfold lift. by rewrite app_nil_r. Qed.

Lemma log_only_environ_get name : log_only (os_environ_get name).
Proof.
  intros env. exists (Ok (env !! name)), []. intros l.
  unfold os_environ_get. simpl. by rewrite app_nil_r.
Qed.

Lemma log_only_emit l text exc_info : log_only (Logger.emit l text exc_info).
Proof. intros env. by exists (Ok tt), [LogRecord l text exc_info]. Qed.

Lemma log_only_bind {A B} (m : M A) (k : A -> M B) :
  log_only m -> (forall a, log_only (k a)) -> log_only (bind m k).
Proof.
  intros Hm Hk env. destruct (Hm env) as ([a|e] & new & H).
  - destruct (Hk a env) as (r & new' & H'). exists r, (new ++ new').
    intros l. unfold bind. by rewrite H, H', app_assoc.
  - exists (Raise e), new. intros l. unfold bind. by rewrite H.
Qed.

Lemma log_only_try_except {A} (body : M A) (handler : exn -> M A) :
  log_only body -> (forall e, log_only (handler e)) ->
  log_only (try_except body handler).
Proof.
  intros Hb Hh env. destruct (Hb env) as ([a|e] & new & H).
  - exists (Ok a), new. intros l. unfold try_except. by rewrite H.
  - destruct (Hh e env) as (r & new' & H'). exists r, (new ++ new').
    intros l. unfold try_except. by rewrite H, H', app_assoc.
Qed.

Create HintDb log_only.
#[local] Hint Resolve log_only_ret log_only_lift log_only_environ_get
  log_only_emit log_only_bind log_only_try_except : log_only.

Ltac log_only_step :=
  match goal with
  | |- log_only (if ?b then _ else _) => destruct b
  | |- log_only (Logger.info _ _) => unfold Logger.info
  | |- log_only (Logger.error _ _ _) => unfold Logger.error
  | |- log_only (bind _ _) => apply log_only_bind; [|intros ?]
  | |- log_only (try_except _ _) => apply log_only_try_except; [|intros ?]
  | |- log_only _ => solve [auto with log_only]
  end.

Lemma log_only_handle_event isprintable payload :
  log_only (handle_event isprintable payload).
Proof. unfold handle_event. repeat log_only_step. Qed.

Lemma log_only_process isprintable payload headers :
  log_only (process_notion_webhook isprintable payload headers).
Proof.
  unfold process_notion_webhook.
  repeat first [apply log_only_handle_event | log_only_step].
Qed.

(** C8: with the configuration held fixed, a second call with the same
    payload and headers, made in the state the first call left behind,
    gives the same result as the first (the same response, rejection or
    exception), leaves the configuration as it was and logs the same
    records again: no state carries over from one call to the next. *)
Theorem process_notion_webhook_deterministic
    (isprintable : N -> bool) (payload : value) (headers : gmap str str) (w : world) :
  let first := process_notion_webhook isprintable payload headers w in
  let second := process_notion_webhook isprintable payload headers (snd first) in
  fst second = fst first /\
  environ (snd first) = environ w /\
  environ (snd second) = environ w /\
  exists new, log_sink (snd first) = log_sink w ++ new /\
              log_sink (snd second) = log_sink (snd first) ++ new.
Proof.
  destruct w as [env l].
  destruct (log_only_process isprintable payload headers env) as (r & new & H).
  cbv zeta. rewrite (H l). simpl. rewrite (H (l ++ new)). simpl.
  repeat split. by exists new.
Qed.

(** The result of a call depends on the payload, the headers and the
    configuration only. *)
Lemma process_notion_webhook_log_irrelevant isprintable payload headers w w' :
  environ w = environ w' ->
  fst (process_notion_webhook isprintable payload headers w) =
  fst (process_notion_webhook isprintable payload headers w').
Proof.
  destruct w as [env l], w' as [env' l']. simpl. intros <-.
  destruct (log_only_process isprintable payload headers env) as (r & new & H).
  by rewrite (H l), (H l').
Qed.

(** *** Rejections and faults *)

(** C9: a signature header that is present but empty is rejected exactly
    like an absent one: the call returns [None] after logging the missing
    header, whatever the payload and the configuration are (neither the
    secret nor the payload is looked at). *)
Theorem process_empty_signature_header
    (isprintable : N -> bool) (payload : value) (headers : gmap str str) (w : world) :
  headers !! lit "Notion-Signature" = Some [] ->
  process_notion_webhook isprintable payload headers w =
  (Ok None,
   World (environ w)
         (log_sink w ++ [LogRecord ERROR (lit "Missing signature header") false])) /\
  process_notion_webhook isprintable payload headers w =
  process_notion_webhook isprintable payload
                         (delete (lit "Notion-Signature") headers) w.
Proof.
  intros H.
  rewrite !process_missing_signature.
  - done.
  - by rewrite lookup_delete_eq.
  - by rewrite H.
Qed.

Lemma process_empty_signature_header_witness :
  let headers : gmap str str := {[ lit "Notion-Signature" := [] ]} in
  let w := World {[ lit "NOTION_WEBHOOK_SECRET" := [0xDC80%N] ]} [] in
  process_notion_webhook ascii_printable (VList []) headers w =
  (Ok None, World (environ w) [LogRecord ERROR (lit "Missing signature header") false])
  /\
  process_notion_webhook ascii_printable (VList []) headers w =
  process_notion_webhook ascii_printable (VList [])
                         (delete (lit "Notion-Signature") headers) w.
Proof.
  intros headers w.
  apply (process_empty_signature_header ascii_printable (VList []) headers w).
  vm_compute. reflexivity.
Defined.

(** C3, at the input on which it fails: a signature header holding a
    character outside ASCII makes [hmac.compare_digest] raise [TypeError];
    the call to [validate_signature] is outside the [try] block, so the
    exception leaves [process_notion_webhook] (and nothing is logged). *)
Theorem process_notion_webhook_raises_type_error (isprintable : N -> bool) :
  let payload := VDict [(lit "type", VStr (lit "facility.updated"))] in
  let headers : gmap str str := {[ lit "Notion-Signature" := [0xE9%N] ]} in
  let w := World {[ lit "NOTION_WEBHOOK_SECRET" := lit "s3" ]} [] in
  process_notion_webhook isprintable payload headers w = (Raise TypeError, w).
Proof. vm_compute. reflexivity. Qed.

(** The same happens for every request whose signature header has a
    character outside ASCII, once a secret is configured. *)
Lemma process_non_ascii_signature
    isprintable payload headers w signature secret key payload_bytes :
  headers !! lit "Notion-Signature" = Some signature ->
  Hmac.is_ascii signature = false ->
  environ w !! lit "NOTION_WEBHOOK_SECRET" = Some secret -> secret <> [] ->
  Utf8.encode secret = Ok key ->
  Utf8.encode (Json.dumps payload) = Ok payload_bytes -> payload_bytes <> [] ->
  process_notion_webhook isprintable payload headers w = (Raise TypeError, w).
Proof.
  intros Hs Hascii Hk Hk' Hkey Hb Hb'.
  assert (signature <> []) as Hs' by (by intros ->).
  rewrite (process_validation isprintable _ _ _ _ _ Hs Hs' Hk Hk'), Hb. simpl.
  by rewrite (validate_signature_non_ascii _ _ _ key).
Qed.

(** A configured secret that cannot be encoded (a lone surrogate, as
    [os.environ] yields for a byte that is not UTF-8) is a second way out. *)
Lemma process_unencodable_secret
    isprintable payload headers w signature secret e payload_bytes :
  headers !! lit "Notion-Signature" = Some signature -> signature <> [] ->
  environ w !! lit "NOTION_WEBHOOK_SECRET" = Some secret -> secret <> [] ->
  Utf8.encode secret = Raise e ->
  Utf8.encode (Json.dumps payload) = Ok payload_bytes -> payload_bytes <> [] ->
  process_notion_webhook isprintable payload headers w = (Raise e, w).
Proof.
  intros Hs Hs' Hk Hk' Hkey Hb Hb'.
  rewrite (process_validation isprintable _ _ _ _ _ Hs Hs' Hk Hk'), Hb. simpl.
  by rewrite (validate_signature_bad_secret _ _ _ e).
Qed.

(** * Further properties of the validator *)

Lemma is_lower_hex_digit n : (n < 16)%N -> is_lower_hex (Hmac.hex_digit n) = true.
Proof.
  intros H. unfold is_lower_hex, Hmac.hex_digit.
  destruct (N.ltb_spec n 10).
  - apply orb_true_iff. left. apply andb_true_iff. split; apply N.leb_le; lia.
  - apply orb_true_iff. right. apply andb_true_iff. split; apply N.leb_le; lia.
Qed.

Lemma lower_hex_hex bs : List.forallb is_lower_hex (Hmac.hex bs) = true.
Proof.
  induction bs as [|b bs IH]; [reflexivity|].
  unfold Hmac.hex in *. cbn [List.map List.concat].
  rewrite forallb_app, IH, andb_true_r. unfold Hmac.hex_of_byte.
  pose proof (byte_to_N_lt b). cbn [List.forallb].
  rewrite !is_lower_hex_digit; [reflexivity|apply N.mod_lt; lia|].
  apply N.Div0.div_lt_upper_bound; lia.
Qed.

Lemma hexdigest_nonempty key msg : Hmac.hexdigest key msg <> [].
Proof.
  intros H. pose proof (py_not_hexdigest key msg) as Hn. by rewrite H in Hn.
Qed.

(** What an accepted call tells about its arguments. *)
Lemma validate_signature_true_inv payload signature secret :
  validate_signature payload signature secret = Ok true ->
  payload <> [] /\ secret <> [] /\
  exists key, Utf8.encode secret = Ok key /\
              signature = Hmac.hexdigest key payload.
Proof.
  intros H. destruct (validate_signature_true _ _ _ H) as (Hp & Hs & Hk).
  repeat split; try done.
  destruct (Utf8.encode secret) as [key|e] eqn:Hkey.
  - exists key. split; [done|].
    destruct (Hmac.is_ascii signature) eqn:Hascii.
    + rewrite (validate_signature_ascii _ _ _ key) in H by done.
      injection H as H. by apply bool_decide_eq_true in H.
    + by rewrite (validate_signature_non_ascii _ _ _ key) in H.
  - by rewrite (validate_signature_bad_secret _ _ _ e) in H.
Qed.

Lemma validate_signature_expected payload secret key :
  payload <> [] -> secret <> [] -> Utf8.encode secret = Ok key ->
  validate_signature payload (Hmac.hexdigest key payload) secret = Ok true.
Proof.
  intros Hp Hk Hkey.
  rewrite (validate_signature_ascii _ _ _ key Hp (hexdigest_nonempty _ _) Hk Hkey
             (is_ascii_hex _)).
  by rewrite bool_decide_eq_true_2.
Qed.

(** X1: the function accepts exactly one signature.  It returns true if
    and only if the payload and the secret are non-empty, the secret can be
    encoded as UTF-8, and the presented signature is, character for
    character, the lowercase hexadecimal HMAC-SHA256 of the payload under
    the encoded secret. *)
Theorem validate_signature_accepts_iff (payload : bytes) (signature secret : str) :
  validate_signature payload signature secret = Ok true <->
  payload <> [] /\ secret <> [] /\
  exists key, Utf8.encode secret = Ok key /\
              signature = Hmac.hexdigest key payload.
Proof.
  split.
  - apply validate_signature_true_inv.
  - intros (Hp & Hk & key & Hkey & ->). by apply validate_signature_expected.
Qed.

(** X3: an accepted signature has 64 characters, each a digit or a letter
    from [a] to [f]: a signature of any other length, or written with
    uppercase letters, is never accepted. *)
Theorem validate_signature_accepted_shape (payload : bytes) (signature secret : str) :
  validate_signature payload signature secret = Ok true ->
  List.length signature = 64%nat /\ List.forallb is_lower_hex signature = true.
Proof.
  intros H. destruct (validate_signature_true_inv _ _ _ H) as (_ & _ & key & _ & ->).
  split; [apply length_hexdigest|apply lower_hex_hex].
Qed.

Lemma validate_signature_accepted_shape_witness :
  List.length (lit "5356d278f9946a1085dd7caa23dfcece9d564599852683bb1d3f7d78f28ecb8b")
    = 64%nat /\
  List.forallb is_lower_hex
    (lit "5356d278f9946a1085dd7caa23dfcece9d564599852683bb1d3f7d78f28ecb8b") = true.
Proof.
  apply (validate_signature_accepted_shape (blit "{}") _ (lit "s3")).
  vm_compute. reflexivity.
Defined.

(** The same digest in uppercase is turned down. *)
Example validate_signature_uppercase :
  validate_signature (blit "{}")
    (lit "5356D278F9946A1085DD7CAA23DFCECE9D564599852683BB1D3F7D78F28ECB8B")
    (lit "s3") = Ok false.
Proof. vm_compute. reflexivity. Qed.

Lemma utf8_encode_app a b :
  Utf8.encode (a ++ b) =
  rbind (Utf8.encode a) (fun x => rbind (Utf8.encode b) (fun y => Ok (x ++ y))).
Proof.
  induction a as [|c a IH]; simpl.
  - by destruct (Utf8.encode b).
  - destruct (Utf8.encode_char c) as [bs|e]; simpl; [|done].
    rewrite IH. destruct (Utf8.encode a) as [x|e]; simpl; [|done].
    destruct (Utf8.encode b) as [y|e]; simpl; [|done].
    by rewrite app_assoc.
Qed.

Lemma utf8_encode_cons_nonempty c s bs :
  Utf8.encode (c :: s) = Ok bs -> bs <> [].
Proof.
  simpl. unfold Utf8.encode_char.
  repeat match goal with
         | |- context [if ?b then _ else _] => destruct b
         end; simpl; try discriminate;
    destruct (Utf8.encode s); simpl; intros [= <-]; discriminate.
Qed.

(** X4: a NUL character appended to a secret whose UTF-8 form is shorter
    than the 64-byte block of HMAC changes nothing: the longer secret
    accepts, rejects and fails on exactly the same payloads and
    signatures. *)
Theorem validate_signature_trailing_nul
    (payload : bytes) (signature secret : str) (key : bytes) :
  secret <> [] ->
  Utf8.encode secret = Ok key ->
  (List.length key < 64)%nat ->
  validate_signature payload signature (secret ++ [0%N]) =
  validate_signature payload signature secret.
Proof.
  intros Hk Hkey Hlen. unfold validate_signature.
  assert (py_not (secret ++ [0%N]) = py_not secret) as ->.
  { by destruct secret. }
  destruct (py_not payload || py_not signature || py_not secret); [done|].
  unfold computed_signature. rewrite utf8_encode_app, Hkey. simpl.
  unfold Hmac.hexdigest.
  change [byte_of_N 0] with [x00]. by rewrite hmac_trailing_zero.
Qed.

Lemma validate_signature_trailing_nul_witness :
  validate_signature (blit "{}")
    (lit "5356d278f9946a1085dd7caa23dfcece9d564599852683bb1d3f7d78f28ecb8b")
    (lit "s3" ++ [0%N]) =
  validate_signature (blit "{}")
    (lit "5356d278f9946a1085dd7caa23dfcece9d564599852683bb1d3f7d78f28ecb8b")
    (lit "s3").
Proof.
  apply (validate_signature_trailing_nul _ _ (lit "s3") (blit "s3")).
  - discriminate.
  - reflexivity.
  - vm_compute. lia.
Defined.

(** * Further properties of the dispatcher *)

Section DispatcherOutcomes.
Variable isprintable : N -> bool.

Local Abbreviation process := (process_notion_webhook isprintable).
Local Abbreviation signature_header := (lit "Notion-Signature").
Local Abbreviation secret_variable := (lit "NOTION_WEBHOOK_SECRET").
Local Abbreviation validated w :=
  (logged INFO (lit "Webhook signature validated")
          [(lit "source", VStr (lit "notion"))] false w).
Local Abbreviation event_type entries := (default VNone (assoc (lit "type") entries)).
Local Abbreviation facility_id entries :=
  (default VNone (assoc (lit "facility_id") entries)).
Local Abbreviation timestamp entries :=
  (default VNone (assoc (lit "timestamp") entries)).
Local Abbreviation received entries :=
  (LogRecord INFO
     (Logger._format_log
        (lit "Received " ++ py_str isprintable (event_type entries) ++ lit " event")
        [(lit "facility_id", facility_id entries)]) false).

(** The paths through the function. *)
Lemma process_cases payload headers w :
  (falsy (headers !! signature_header) = true /\
   process payload headers w =
   (Ok None, logged ERROR (lit "Missing signature header") [] false w)) \/
  (falsy (headers !! signature_header) = false /\
   falsy (environ w !! secret_variable) = true /\
   process payload headers w =
   (Ok None, logged ERROR (lit "Webhook secret not configured") [] false w)) \/
  (exists signature secret payload_bytes,
     headers !! signature_header = Some signature /\ signature <> [] /\
     environ w !! secret_variable = Some secret /\ secret <> [] /\
     Utf8.encode (Json.dumps payload) = Ok payload_bytes /\
     ((exists e, validate_signature payload_bytes signature secret = Raise e /\
                 process payload headers w = (Raise e, w)) \/
      (validate_signature payload_bytes signature secret = Ok false /\
       process payload headers w =
       (Ok None, logged ERROR (lit "Invalid webhook signature") [] false w)) \/
      (validate_signature payload_bytes signature secret = Ok true /\
       process payload headers w =
       try_except (handle_event isprintable payload)
         (fun _ w' => (Ok None, logged ERROR (lit "Error processing webhook") [] true w'))
         (validated w)))).
Proof.
  destruct (falsy (headers !! signature_header)) eqn:Hs.
  { left. split; [done|]. by apply process_missing_signature. }
  destruct (falsy (environ w !! secret_variable)) eqn:Hk.
  { right. left. repeat split; try done. by apply process_missing_secret. }
  right. right.
  destruct (headers !! signature_header) as [[|c signature]|] eqn:Hs';
    try discriminate.
  destruct (environ w !! secret_variable) as [[|d secret]|] eqn:Hk';
    try discriminate.
  destruct (payload_bytes_total payload) as [payload_bytes Hb].
  exists (c :: signature), (d :: secret), payload_bytes.
  repeat split; try done.
  rewrite (process_validation isprintable _ _ _ (c :: signature) (d :: secret))
    by done.
  rewrite Hb. simpl.
  destruct (validate_signature _ _ _) as [[|]|e]; eauto.
Qed.

(** On a dict the [try] block logs the reception, then at most one
    handler record, all at level [INFO]. *)
Lemma handle_event_dict entries w :
  exists extra,
    handle_event isprintable (VDict entries) w =
    (Ok (Some (response isprintable (event_type entries) (facility_id entries)
                        (timestamp entries))),
     World (environ w) (log_sink w ++ received entries :: extra)) /\
    Forall (fun r => log_level r = INFO) extra.
Proof.
  cbv [handle_event bind lift get ret Logger.info Logger.emit].
  repeat match goal with
         | |- context [if ?b then _ else _] => destruct b
         end; simpl; rewrite <- ?app_assoc; simpl;
    eexists; (split; [reflexivity|]); repeat constructor.
Qed.

Lemma handle_event_other payload w :
  (forall entries, payload <> VDict entries) ->
  handle_event isprintable payload w = (Raise AttributeError, w).
Proof. intros H. destruct payload; try reflexivity. by destruct (H entries). Qed.

(** X5: a response is produced for exactly the authentic requests: the
    payload is a dict, a non-empty secret is configured and can be
    encoded, and the signature header is the lowercase hexadecimal
    HMAC-SHA256, under that secret, of [json.dumps] of the payload.  The
    response is then the envelope over the three fields of the payload. *)
Theorem process_accepts_iff
    (payload : value) (headers : gmap str str) (w : world) (r : value) :
  fst (process payload headers w) = Ok (Some r) <->
  exists entries secret key payload_bytes,
    payload = VDict entries /\
    environ w !! secret_variable = Some secret /\ secret <> [] /\
    Utf8.encode secret = Ok key /\
    Utf8.encode (Json.dumps payload) = Ok payload_bytes /\
    headers !! signature_header = Some (Hmac.hexdigest key payload_bytes) /\
    r = response isprintable (event_type entries) (facility_id entries)
                 (timestamp entries).
Proof.
  split.
  - intros H.
    destruct (process_cases payload headers w)
      as [[_ E]|[(_ & _ & E)|(signature & secret & payload_bytes & Hs & _ & Hk & _
                              & Hb & [(e & _ & E)|[[_ E]|[Hv E]]])]];
      rewrite E in H; try discriminate.
    destruct (validate_signature_true_inv _ _ _ Hv) as (_ & Hk' & key & Hkey & ->).
    unfold try_except in H.
    destruct payload as [ | | | | | |entries];
      try (rewrite handle_event_other in H by congruence; discriminate).
    destruct (handle_event_dict entries (validated w)) as (extra & E' & _).
    rewrite E' in H. simpl in H. injection H as <-.
    exists entries, secret, key, payload_bytes. by repeat split.
  - intros (entries & secret & key & payload_bytes & -> & Hk & Hk' & Hkey & Hb & Hs & ->).
    assert (payload_bytes <> []) as Hp.
    { rewrite dumps_dict in Hb.
      exact (utf8_encode_cons_nonempty 123%N _ _ Hb). }
    apply (process_dict_result isprintable entries headers w
             (Hmac.hexdigest key payload_bytes) secret payload_bytes);
      try done.
    by apply validate_signature_expected.
Qed.

(** X6: what a call logs tells its outcome.  An exception leaves before
    anything is logged; a rejection ([None]) ends with one [ERROR] record,
    after [INFO] records only; an accepted request logs [INFO] records
    only.  The configuration is never changed. *)
Theorem process_outcome_logged
    (payload : value) (headers : gmap str str) (w : world) :
  environ (snd (process payload headers w)) = environ w /\
  exists new,
    log_sink (snd (process payload headers w)) = log_sink w ++ new /\
    match fst (process payload headers w) with
    | Raise _ => new = []
    | Ok None =>
        exists before e, new = before ++ [e] /\ log_level e = ERROR /\
                         Forall (fun r => log_level r = INFO) before
    | Ok (Some _) => new <> [] /\ Forall (fun r => log_level r = INFO) new
    end.
Proof.
  destruct (process_cases payload headers w)
    as [[_ E]|[(_ & _ & E)|(signature & secret & payload_bytes & _ & _ & _ & _
                            & _ & [(e & _ & E)|[[_ E]|[_ E]]])]];
    rewrite E; clear E.
  - split; [done|]. eexists. split; [reflexivity|]. eexists [], _; split; [reflexivity|]; by repeat constructor.
  - split; [done|]. eexists. split; [reflexivity|]. eexists [], _; split; [reflexivity|]; by repeat constructor.
  - split; [done|]. exists []. by rewrite app_nil_r.
  - split; [done|]. eexists. split; [reflexivity|]. eexists [], _; split; [reflexivity|]; by repeat constructor.
  - unfold try_except.
    destruct payload as [ | | | | | |entries];
      try (rewrite handle_event_other by congruence; split; [done|];
           eexists; split; [simpl; rewrite <- app_assoc; reflexivity|];
           eexists [_], _; split; [reflexivity|]; by repeat constructor).
    destruct (handle_event_dict entries (validated w)) as (extra & -> & Hextra).
    split; [done|]. eexists. split; [simpl; rewrite <- app_assoc; reflexivity|].
    split; [done|]. by repeat constructor.
Qed.

(** X8: a validated payload that is not a dict (a JSON list, string,
    number or null) has no [.get]; the fault is caught inside the [try]
    block, logged with its traceback, and the request is turned down. *)
Theorem process_non_dict_payload
    (payload : value) (headers : gmap str str) (w : world)
    (signature secret : str) (payload_bytes : bytes) :
  (forall entries, payload <> VDict entries) ->
  headers !! signature_header = Some signature ->
  environ w !! secret_variable = Some secret ->
  Utf8.encode (Json.dumps payload) = Ok payload_bytes ->
  validate_signature payload_bytes signature secret = Ok true ->
  process payload headers w =
  (Ok None,
   World (environ w)
         (log_sink w ++
          [ LogRecord INFO
              (Logger._format_log (lit "Webhook signature validated")
                                  [(lit "source", VStr (lit "notion"))]) false;
            LogRecord ERROR (lit "Error processing webhook") true ])).
Proof.
  intros Hp Hs Hk Hb Hv.
  rewrite (process_dispatch_fault isprintable _ _ _ _ _ _ AttributeError (validated w)
             Hs Hk Hb Hv (handle_event_other _ _ Hp)).
  unfold logged. simpl. by rewrite <- app_assoc.
Qed.

(** X9: each of the three recognised event types runs its own branch:
    after the validation and reception records, the matching
    ["Processing ..."] record is logged with the facility id, and the
    envelope is returned. *)
Theorem process_recognized_event_type
    (entries : list (str * value)) (headers : gmap str str) (w : world)
    (signature secret : str) (payload_bytes : bytes) (name text : string) :
  In (name, text)
     [ ("facility.updated", "Processing facility update");
       ("facility.verified", "Processing facility verification");
       ("facility.deleted", "Processing facility deletion") ]%string ->
  assoc (lit "type") entries = Some (VStr (lit name)) ->
  headers !! signature_header = Some signature ->
  environ w !! secret_variable = Some secret ->
  Utf8.encode (Json.dumps (VDict entries)) = Ok payload_bytes ->
  validate_signature payload_bytes signature secret = Ok true ->
  process (VDict entries) headers w =
  (Ok (Some (response isprintable (VStr (lit name)) (facility_id entries)
                      (timestamp entries))),
   World (environ w)
         (log_sink w ++
          [ LogRecord INFO
              (Logger._format_log (lit "Webhook signature validated")
                                  [(lit "source", VStr (lit "notion"))]) false;
            LogRecord INFO
              (Logger._format_log (lit "Received " ++ lit name ++ lit " event")
                                  [(lit "facility_id", facility_id entries)]) false;
            LogRecord INFO
              (Logger._format_log (lit text)
                                  [(lit "facility_id", facility_id entries)]) false ])).
Proof.
  intros Hin Ht Hs Hk Hb Hv.
  rewrite (process_valid_signature isprintable _ _ _ _ _ _ Hs Hk Hb Hv).
  unfold try_except.
  cbv [handle_event bind lift get ret Logger.info Logger.emit]. rewrite Ht.
  destruct Hin as [[= <- <-]|[[= <- <-]|[[= <- <-]|[]]]];
    simpl; rewrite <- !app_assoc; reflexivity.
Qed.

(** X10: a secret that is unset, or set to the empty string, turns every
    request with a signature header down before anything is computed on
    the payload or the signature (so also a signature that could not be
    compared). *)
Theorem process_empty_secret
    (payload : value) (headers : gmap str str) (w : world) (signature : str) :
  headers !! signature_header = Some signature -> signature <> [] ->
  environ w !! secret_variable = None \/ environ w !! secret_variable = Some [] ->
  process payload headers w =
  (Ok None,
   World (environ w)
         (log_sink w ++ [LogRecord ERROR (lit "Webhook secret not configured") false])).
Proof.
  intros Hs Hs' Hk. apply process_missing_secret.
  - rewrite Hs. by apply falsy_nonempty.
  - by destruct Hk as [-> | ->].
Qed.

End DispatcherOutcomes.

Lemma process_non_dict_payload_witness :
  let headers : gmap str str :=
    {[ lit "Notion-Signature" :=
         lit "276ede2db8b2360718033f3082a4aeaa4925d3aeb22cb794ed9d828d0427b5d2" ]} in
  let w := World {[ lit "NOTION_WEBHOOK_SECRET" := lit "s3" ]} [] in
  process_notion_webhook ascii_printable (VList []) headers w =
  (Ok None,
   World (environ w)
         [ LogRecord INFO
             (Logger._format_log (lit "Webhook signature validated")
                                 [(lit "source", VStr (lit "notion"))]) false;
           LogRecord ERROR (lit "Error processing webhook") true ]).
Proof.
  intros headers w.
  apply (process_non_dict_payload ascii_printable (VList []) headers w
           (lit "276ede2db8b2360718033f3082a4aeaa4925d3aeb22cb794ed9d828d0427b5d2")
           (lit "s3") (blit "[]"));
    solve [vm_compute; reflexivity | discriminate].
Defined.

Lemma process_recognized_event_type_witness :
  let entries := [ (lit "type", VStr (lit "facility.verified"));
                   (lit "facility_id", VStr (lit "7")) ] in
  let headers : gmap str str :=
    {[ lit "Notion-Signature" :=
         lit "abec946314109ceebf3b6041ee8ccae431fd3e7dcd4d20d3912dfe96c3259db2" ]} in
  let w := World {[ lit "NOTION_WEBHOOK_SECRET" := lit "s3" ]} [] in
  process_notion_webhook ascii_printable (VDict entries) headers w =
  (Ok (Some (response ascii_printable (VStr (lit "facility.verified"))
                      (VStr (lit "7")) VNone)),
   World (environ w)
         [ LogRecord INFO
             (Logger._format_log (lit "Webhook signature validated")
                                 [(lit "source", VStr (lit "notion"))]) false;
           LogRecord INFO
             (Logger._format_log (lit "Received facility.verified event")
                                 [(lit "facility_id", VStr (lit "7"))]) false;
           LogRecord INFO
             (Logger._format_log (lit "Processing facility verification")
                                 [(lit "facility_id", VStr (lit "7"))]) false ]).
Proof.
  intros entries headers w.
  apply (process_recognized_event_type ascii_printable entries headers w
           (lit "abec946314109ceebf3b6041ee8ccae431fd3e7dcd4d20d3912dfe96c3259db2")
           (lit "s3")
           (blit "{" ++ [x22] ++ blit "type" ++ [x22] ++ blit ": " ++ [x22] ++
            blit "facility.verified" ++ [x22] ++ blit ", " ++ [x22] ++
            blit "facility_id" ++ [x22] ++ blit ": " ++ [x22] ++ blit "7" ++ [x22] ++
            blit "}")
           "facility.verified" "Processing facility verification");
    solve [right; left; reflexivity | vm_compute; reflexivity].
Defined.

Lemma process_empty_secret_witness :
  let headers : gmap str str := {[ lit "Notion-Signature" := [0xE9%N] ]} in
  let w := World {[ lit "NOTION_WEBHOOK_SECRET" := [] ]} [] in
  process_notion_webhook ascii_printable (VDict []) headers w =
  (Ok None,
   World (environ w) [LogRecord ERROR (lit "Webhook secret not configured") false]).
Proof.
  intros headers w.
  apply (process_empty_secret ascii_printable (VDict []) headers w [0xE9%N]).
  - vm_compute. reflexivity.
  - discriminate.
  - right. vm_compute. reflexivity.
Defined.


(** * Properties of the structured logger *)

Section StructuredLoggerProperties.
Variable module_name : str.
Variable can_open : str -> bool.

Local Abbreviation init := (__init__ module_name can_open).
Local Abbreviation log_file env := (env !! lit "LOG_FILE").

(** The streams a logger built under [env] writes to. *)
Local Abbreviation streams env :=
  (Logging.Stdout ::
   if falsy (log_file env) then [] else [Logging.LogFile (the (log_file env))]).

Lemma configure_console (self : str) (l : level) (s : Logging.state) :
  Logging.add_handler self (Logging.Handler Logging.Stdout l)
    (Logging.clear_handlers self (Logging.get_logger_set_level self l s)) =
  Logging.State
    (<[self := Logging.LoggerObject l [Logging.Handler Logging.Stdout l]]>
       (Logging.loggers s))
    (Logging.written s).
Proof.
  unfold Logging.add_handler, Logging.clear_handlers, Logging.get_logger_set_level.
  simpl. f_equal. apply map_eq. intros i.
  destruct (decide (i = self)) as [->|Hne].
  - rewrite !lookup_alter_eq, lookup_partial_alter_eq, lookup_insert_eq. reflexivity.
  - rewrite !lookup_alter_ne, lookup_partial_alter_ne, lookup_insert_ne by done.
    reflexivity.
Qed.

Lemma add_file_handler (self : str) (l : level) (file : str)
    (m : gmap str Logging.logger_object) (written : list (Logging.stream * log_record)) :
  Logging.add_handler self (Logging.Handler (Logging.LogFile file) l)
    (Logging.State
       (<[self := Logging.LoggerObject l [Logging.Handler Logging.Stdout l]]> m)
       written) =
  Logging.State
    (<[self := Logging.LoggerObject l
                 [Logging.Handler Logging.Stdout l;
                  Logging.Handler (Logging.LogFile file) l]]> m)
    written.
Proof.
  unfold Logging.add_handler. simpl. f_equal. by rewrite alter_insert_eq.
Qed.

(** The construction in one step. *)
Lemma init_eq (name : option str) (l : level) (env : gmap str str)
    (s : Logging.state) :
  init name l env s =
  let self := if falsy name then module_name else the name in
  let console := Logging.Handler Logging.Stdout l in
  let file := Logging.Handler (Logging.LogFile (the (log_file env))) l in
  let with_console :=
    Logging.State (<[self := Logging.LoggerObject l [console]]> (Logging.loggers s))
                  (Logging.written s) in
  if falsy (log_file env) then (Some self, with_console)
  else if can_open (the (log_file env)) then
    (Some self,
     Logging.State (<[self := Logging.LoggerObject l [console; file]]>
                      (Logging.loggers s))
                   (Logging.written s))
  else (None, with_console).
Proof.
  unfold __init__. cbv zeta. rewrite configure_console.
  destruct (falsy (log_file env)); [done|].
  destruct (can_open _); [|done]. by rewrite add_file_handler.
Qed.

(** The logger object that a successful construction leaves behind. *)
Lemma init_logger (name : option str) (l : level) (env : gmap str str)
    (s : Logging.state) (self : str) (s' : Logging.state) :
  init name l env s = (Some self, s') ->
  self = (if falsy name then module_name else the name) /\
  Logging.written s' = Logging.written s /\
  Logging.loggers s' =
  <[self := Logging.LoggerObject l
              (List.map (fun st => Logging.Handler st l) (streams env))]>
    (Logging.loggers s).
Proof.
  rewrite init_eq. cbv zeta.
  destruct (falsy (log_file env)).
  - intros [= <- <-]. by repeat split.
  - destruct (can_open _); [|discriminate].
    intros [= <- <-]. by repeat split.
Qed.


(** X15: constructing a logger again with the same arguments changes
    nothing: the handlers of the first construction are replaced, not
    added to, so no record is ever written twice to a stream. *)
Theorem structured_logger_init_idempotent
    (name : option str) (l : level) (env : gmap str str) (s : Logging.state) :
  init name l env (snd (init name l env s)) = init name l env s.
Proof.
  rewrite !init_eq. cbv zeta.
  destruct (falsy (log_file env)); simpl.
  - by rewrite insert_insert_eq.
  - destruct (can_open _); simpl; by rewrite insert_insert_eq.
Qed.

(** X16: instances built with the same name share one logger object: the
    level given to the later construction governs the earlier instance as
    well, which from then on drops every record below it. *)
Theorem structured_logger_shared
    (name : str) (l1 l2 : level) (env : gmap str str) (s s1 s2 : Logging.state)
    (first second : str) (r : log_record) :
  name <> [] ->
  init (Some name) l1 env s = (Some first, s1) ->
  init (Some name) l2 env s1 = (Some second, s2) ->
  (Logging.levelno (log_level r) < Logging.levelno l2)%N ->
  first = second /\ Logging.log first r s2 = s2.
Proof.
  intros Hname H1 H2 Hlt.
  destruct (init_logger _ _ _ _ _ _ H1) as (E1 & _ & _).
  destruct (init_logger _ _ _ _ _ _ H2) as (E2 & _ & Hloggers).
  rewrite (falsy_nonempty _ Hname) in E1, E2. simpl in E1, E2. subst first second.
  split; [done|].
  pose proof (f_equal (fun m => m !! name) Hloggers) as Hlookup. simpl in Hlookup.
  rewrite lookup_insert_eq in Hlookup.
  unfold Logging.log. rewrite Hlookup. simpl.
  apply N.leb_gt in Hlt. by rewrite Hlt.
Qed.
End StructuredLoggerProperties.


Lemma structured_logger_shared_witness :
  let s1 := snd (__init__ (lit "utils.logger") (fun _ => true)
                          (Some (lit "soberbookings")) INFO ∅ (Logging.State ∅ [])) in
  let s2 := snd (__init__ (lit "utils.logger") (fun _ => true)
                          (Some (lit "soberbookings")) ERROR ∅ s1) in
  lit "soberbookings" = lit "soberbookings" /\
  Logging.log (lit "soberbookings") (LogRecord INFO (lit "Application started") false) s2
  = s2.
Proof.
  intros s1 s2.
  apply (structured_logger_shared (lit "utils.logger") (fun _ => true)
           (lit "soberbookings") INFO ERROR ∅ (Logging.State ∅ []) s1 s2
           (lit "soberbookings") (lit "soberbookings")
           (LogRecord INFO (lit "Application started") false));
    solve [vm_compute; reflexivity | discriminate].
Defined.

(** * Properties of the log text and of the signed text *)

Lemma printable_hex_digit n : (n < 16)%N -> ascii_printable (Hmac.hex_digit n) = true.
Proof.
  intros H. unfold ascii_printable, Hmac.hex_digit.
  destruct (N.ltb_spec n 10); apply andb_true_iff; split;
    solve [apply N.leb_le; lia | apply N.ltb_lt; lia].
Qed.

Lemma printable_hex_width width n :
  List.forallb ascii_printable (hex_width width n) = true.
Proof.
  unfold hex_width. apply forallb_forall. intros c Hc.
  apply in_map_iff in Hc as (i & <- & _). apply printable_hex_digit.
  change 0xF%N with (N.ones 4). rewrite N.land_ones.
  apply N.mod_lt. discriminate.
Qed.

Lemma printable_concat (parts : list str) :
  (forall p, In p parts -> List.forallb ascii_printable p = true) ->
  List.forallb ascii_printable (List.concat parts) = true.
Proof.
  induction parts as [|p parts IH]; intros H; simpl; [done|].
  rewrite forallb_app, (H p), IH; auto using in_eq, in_cons.
Qed.

Lemma printable_join sep (parts : list str) :
  List.forallb ascii_printable sep = true ->
  (forall p, In p parts -> List.forallb ascii_printable p = true) ->
  List.forallb ascii_printable (join sep parts) = true.
Proof.
  intros Hsep. induction parts as [|p parts IH]; intros H; [done|].
  cbn [join]. destruct parts as [|q parts]; [apply H, in_eq|].
  rewrite !forallb_app, (H p), Hsep, IH; auto using in_eq, in_cons.
Qed.

Lemma printable_escape_char c :
  List.forallb ascii_printable (Json.escape_char c) = true.
Proof.
  unfold Json.escape_char.
  repeat match goal with
         | |- context [if ?b then _ else _] => destruct b eqn:?
         end;
    try reflexivity;
    try (unfold esc; cbn [List.forallb]; rewrite ?forallb_app, ?printable_hex_width;
         reflexivity).
  cbn [List.forallb]. rewrite andb_true_r. unfold ascii_printable.
  match goal with
  | H : (32 <=? c)%N && (c <=? 126)%N = true |- _ =>
      apply andb_true_iff in H as [H1 H2%N.leb_le]
  end.
  rewrite H1. apply N.ltb_lt. lia.
Qed.

Lemma printable_encode_str s :
  List.forallb ascii_printable (Json.encode_str s) = true.
Proof.
  unfold Json.encode_str. rewrite !forallb_app, printable_concat; [done|].
  intros p Hp. apply in_map_iff in Hp as (c & <- & _). apply printable_escape_char.
Qed.

Lemma printable_digits d :
  List.forallb ascii_printable (lit (NilEmpty.string_of_uint d)) = true.
Proof. induction d; simpl; try done; by rewrite IHd. Qed.

Lemma printable_int_repr z : List.forallb ascii_printable (int_repr z) = true.
Proof.
  unfold int_repr, NilZero.string_of_int, NilZero.string_of_uint.
  destruct (Z.to_int z) as [d|d]; destruct d; try reflexivity;
    try apply printable_digits;
    change (lit (String "-" ?s)) with (45%N :: lit s); cbn [List.forallb];
    rewrite printable_digits; reflexivity.
Qed.

(** [json.dumps] with [ensure_ascii] emits printable ASCII only: control
    characters and everything outside ASCII are escaped. *)
Lemma printable_dumps v :
  floats_printable v = true ->
  List.forallb ascii_printable (Json.dumps v) = true.
Proof.
  induction v as [ | [|] | z | [ | | | r] | s | items IH | entries IH ]
    using value_nested_ind; intros Hf;
    try reflexivity; try exact (printable_int_repr _);
    try exact (printable_encode_str _); try exact Hf.
  - rewrite dumps_list, !forallb_app, printable_join; try done.
    intros p Hp. apply in_map_iff in Hp as (x & <- & Hx).
    rewrite Forall_forall in IH. apply IH; [by apply list_elem_of_In|].
    cbn [floats_printable] in Hf. rewrite forallb_forall in Hf. by apply Hf.
  - rewrite dumps_dict, !forallb_app, printable_join; try done.
    intros p Hp. apply in_map_iff in Hp as ([k x] & <- & Hx).
    rewrite !forallb_app, printable_encode_str. simpl.
    rewrite Forall_forall in IH. apply (IH (k, x)); [by apply list_elem_of_In|].
    cbn [floats_printable] in Hf. rewrite forallb_forall in Hf.
    by apply (Hf (k, x)).
Qed.

(** X17: the text of a log record is the message, unchanged and first;
    a context is appended exactly when keyword arguments are given, and
    that context is printable ASCII on a single line, whatever the values
    hold: a value can neither break the line nor forge a record. *)
Theorem format_log_context (message : str) (kwargs : list (str * value)) :
  floats_printable (VDict kwargs) = true ->
  exists context,
    Logger._format_log message kwargs = message ++ context /\
    (context = [] <-> kwargs = []) /\
    List.forallb ascii_printable context = true.
Proof.
  intros Hf. destruct kwargs as [|kv kwargs].
  - exists []. by rewrite app_nil_r.
  - exists (lit " | " ++ Json.dumps (VDict (kv :: kwargs))).
    split; [reflexivity|]. split; [split; discriminate|].
    by rewrite forallb_app, printable_dumps.
Qed.

Lemma format_log_context_witness :
  exists context,
    Logger._format_log (lit "Received x event")
                       [(lit "facility_id", VStr [10%N; 0xE9%N])] =
    lit "Received x event" ++ context /\
    (context = [] <-> [(lit "facility_id", VStr [10%N; 0xE9%N])] = []) /\
    List.forallb ascii_printable context = true.
Proof.
  apply (format_log_context (lit "Received x event")
           [(lit "facility_id", VStr [10%N; 0xE9%N])]).
  reflexivity.
Defined.

Lemma starts_with_app p s : starts_with p (p ++ s) = true.
Proof. induction p as [|a p IH]; [by destruct s|]. simpl. by rewrite N.eqb_refl. Qed.

Lemma contains_app sub a s : contains sub s = true -> contains sub (a ++ s) = true.
Proof.
  intros H. induction a as [|c a IH]; [done|].
  cbn [app contains]. by rewrite IH, orb_true_r.
Qed.

Lemma contains_infix sub a b : contains sub (a ++ sub ++ b) = true.
Proof.
  apply contains_app. destruct (sub ++ b) eqn:E; unfold contains;
    fold contains; rewrite <- E, starts_with_app; reflexivity.
Qed.

Lemma join_cons_prefix sep p (parts : list str) :
  exists rest, join sep (p :: parts) = p ++ rest.
Proof.
  destruct parts as [|q parts]; cbn [join]; [exists []; by rewrite app_nil_r|eauto].
Qed.

(** X18: the text that is verified is [json.dumps] of the parsed payload,
    which puts [": "] after every key.  For a dict that is not empty it is
    therefore never equal to a request body that has no colon followed by
    a space, such as compact JSON: the signature of such a body is checked
    against bytes the sender did not sign. *)
Theorem payload_reserialised_separators
    (entries : list (str * value)) (raw : str) :
  entries <> [] ->
  contains (lit ": ") raw = false ->
  Json.dumps (VDict entries) <> raw.
Proof.
  intros Hne Hraw <-. destruct entries as [|[k x] entries]; [done|].
  rewrite dumps_dict in Hraw. cbn [List.map fst snd] in Hraw.
  destruct (join_cons_prefix (lit ", ")
              (Json.encode_str k ++ lit ": " ++ Json.dumps x)
              (List.map (fun kv => Json.encode_str (fst kv) ++ lit ": " ++
                                   Json.dumps (snd kv)) entries)) as [rest E].
  rewrite E in Hraw.
  replace (lit "{" ++ ((Json.encode_str k ++ lit ": " ++ Json.dumps x) ++ rest) ++ lit "}")
    with ((lit "{" ++ Json.encode_str k) ++ lit ": " ++ (Json.dumps x ++ rest ++ lit "}"))
    in Hraw by (by rewrite <- !app_assoc).
  by rewrite contains_infix in Hraw.
Qed.

Lemma payload_reserialised_separators_witness :
  Json.dumps (VDict [(lit "type", VStr (lit "facility.updated"))]) <>
  [123%N; 34%N] ++ lit "type" ++ [34%N; 58%N; 34%N] ++ lit "facility.updated" ++
  [34%N; 125%N].
Proof.
  apply (payload_reserialised_separators
           [(lit "type", VStr (lit "facility.updated"))]).
  - discriminate.
  - vm_compute. reflexivity.
Defined.

(** * Further properties of the request fields *)

(** X12: the signature is read under the exact key ['Notion-Signature'].
    A request whose headers lack that key is turned down with
    ["Missing signature header"], whatever other keys they hold (the same
    name in another capitalisation included) and whatever the payload
    and the configuration are. *)
Theorem process_absent_signature_header
    (isprintable : N -> bool) (payload : value) (headers : gmap str str) (w : world) :
  headers !! lit "Notion-Signature" = None ->
  process_notion_webhook isprintable payload headers w =
  (Ok None,
   World (environ w)
         (log_sink w ++ [LogRecord ERROR (lit "Missing signature header") false])).
Proof.
  intros H. apply process_missing_signature. by rewrite H.
Qed.

Lemma process_absent_signature_header_witness :
  let headers : gmap str str :=
    {[ lit "notion-signature" :=
         lit "5356d278f9946a1085dd7caa23dfcece9d564599852683bb1d3f7d78f28ecb8b" ]} in
  let w := World {[ lit "NOTION_WEBHOOK_SECRET" := lit "s3" ]} [] in
  process_notion_webhook ascii_printable (VDict []) headers w =
  (Ok None, World (environ w) [LogRecord ERROR (lit "Missing signature header") false]).
Proof.
  intros headers w.
  apply (process_absent_signature_header ascii_printable (VDict []) headers w).
  vm_compute. reflexivity.
Defined.

(** X13: the response depends on the payload through the keys ['type'],
    ['facility_id'] and ['timestamp'] only: two validated requests whose
    payloads agree on these three keys get the same response, whatever
    else the payloads hold and whatever their headers and secrets are. *)
Theorem process_ignores_other_keys
    (isprintable : N -> bool)
    (entries1 entries2 : list (str * value)) (headers1 headers2 : gmap str str)
    (w1 w2 : world) (signature1 signature2 secret1 secret2 : str)
    (payload_bytes1 payload_bytes2 : bytes) :
  assoc (lit "type") entries1 = assoc (lit "type") entries2 ->
  assoc (lit "facility_id") entries1 = assoc (lit "facility_id") entries2 ->
  assoc (lit "timestamp") entries1 = assoc (lit "timestamp") entries2 ->
  headers1 !! lit "Notion-Signature" = Some signature1 ->
  environ w1 !! lit "NOTION_WEBHOOK_SECRET" = Some secret1 ->
  Utf8.encode (Json.dumps (VDict entries1)) = Ok payload_bytes1 ->
  validate_signature payload_bytes1 signature1 secret1 = Ok true ->
  headers2 !! lit "Notion-Signature" = Some signature2 ->
  environ w2 !! lit "NOTION_WEBHOOK_SECRET" = Some secret2 ->
  Utf8.encode (Json.dumps (VDict entries2)) = Ok payload_bytes2 ->
  validate_signature payload_bytes2 signature2 secret2 = Ok true ->
  fst (process_notion_webhook isprintable (VDict entries1) headers1 w1) =
  fst (process_notion_webhook isprintable (VDict entries2) headers2 w2) /\
  exists r, fst (process_notion_webhook isprintable (VDict entries1) headers1 w1)
            = Ok (Some r).
Proof.
  intros Ht Hf Hts Hs1 Hk1 Hb1 Hv1 Hs2 Hk2 Hb2 Hv2.
  rewrite (process_dict_result isprintable entries1 headers1 w1 _ _ _ Hs1 Hk1 Hb1 Hv1).
  rewrite (process_dict_result isprintable entries2 headers2 w2 _ _ _ Hs2 Hk2 Hb2 Hv2).
  rewrite Ht, Hf, Hts. eauto.
Qed.

Lemma process_ignores_other_keys_witness :
  let entries1 := [ (lit "type", VStr (lit "facility.deleted")) ] in
  let entries2 := [ (lit "note", VStr (lit "x"));
                    (lit "type", VStr (lit "facility.deleted"));
                    (lit "extra", VList [VInt 1; VInt 2]) ] in
  let headers1 : gmap str str :=
    {[ lit "Notion-Signature" :=
         lit "2138d45919d1e8d7f246c9bf48183b1f4032bf20e1f23a665050085c26689a06" ]} in
  let headers2 : gmap str str :=
    {[ lit "Notion-Signature" :=
         lit "05afeb26d37afc46640923c4c05c4d14b034c461c0e1b3b18e154b2bda605eaf" ]} in
  let w := World {[ lit "NOTION_WEBHOOK_SECRET" := lit "s3" ]} [] in
  fst (process_notion_webhook ascii_printable (VDict entries1) headers1 w) =
  fst (process_notion_webhook ascii_printable (VDict entries2) headers2 w) /\
  exists r, fst (process_notion_webhook ascii_printable (VDict entries1) headers1 w)
            = Ok (Some r).
Proof.
  intros entries1 entries2 headers1 headers2 w.
  apply (process_ignores_other_keys ascii_printable entries1 entries2
           headers1 headers2 w w
           (lit "2138d45919d1e8d7f246c9bf48183b1f4032bf20e1f23a665050085c26689a06")
           (lit "05afeb26d37afc46640923c4c05c4d14b034c461c0e1b3b18e154b2bda605eaf")
           (lit "s3") (lit "s3")
           (blit "{" ++ [x22] ++ blit "type" ++ [x22] ++ blit ": " ++ [x22] ++
            blit "facility.deleted" ++ [x22] ++ blit "}")
           (blit "{" ++ [x22] ++ blit "note" ++ [x22] ++ blit ": " ++ [x22] ++
            blit "x" ++ [x22] ++ blit ", " ++ [x22] ++ blit "type" ++ [x22] ++
            blit ": " ++ [x22] ++ blit "facility.deleted" ++ [x22] ++ blit ", " ++
            [x22] ++ blit "extra" ++ [x22] ++ blit ": [1, 2]}"));
    vm_compute; reflexivity.
Defined.
